(** * Lens prescriptions, format conversion and optimisation set-ups of the
      optiland_Pr scripts

    The scripts build sequential optical systems (surfaces, aperture, fields,
    wavelengths), convert them to and from the AutoLens dictionary format and
    declare optimisation problems over surface radii.  Python floats are read
    as exact rationals ([Q]); [np.inf] is a separate constructor. *)

From Stdlib Require Import QArith Qminmax Qabs Lqa ZArith Lia List String Bool.
Import ListNotations.
Open Scope Q_scope.

(* ===================================================================== *)
(** * Part I: definitions                                                  *)
(* ===================================================================== *)

(** ** The lens container ([optic.Optic]) as the scripts use it *)

Module Optic.

(** A length that may be [np.inf] (flat surface, object at infinity). *)
Inductive extent : Type :=
| Finite (q : Q)
| Infinite.

Record Surface : Type := mkSurface {
  index : nat;
  radius : extent;
  thickness : extent;
  material : option string;   (* [None] is air *)
  is_stop : bool;
  conic : Q
}.

Record Field : Type := mkField { y : Q }.

Record Wavelength : Type := mkWavelength {
  value : Q;
  is_primary : bool
}.

Record Aperture : Type := mkAperture {
  ap_type : string;
  ap_value : Q
}.

Record t : Type := mkOptic {
  name : option string;
  surfaces : list Surface;
  aperture : option Aperture;
  field_type : option string;
  fields : list Field;
  wavelengths : list Wavelength
}.

(** [optic.Optic()] *)
Definition empty : t := mkOptic None [] None None [] [].

(** [lens.name = n]; [n] may be Python's [None]. *)
Definition assign_name (n : option string) (L : t) : t :=
  mkOptic n (surfaces L) (aperture L) (field_type L) (fields L)
          (wavelengths L).

Definition set_name (s : string) (L : t) : t := assign_name (Some s) L.

Definition with_surfaces (ss : list Surface) (L : t) : t :=
  mkOptic (name L) ss (aperture L) (field_type L) (fields L) (wavelengths L).

Definition insert_at {A : Type} (i : nat) (a : A) (l : list A) : list A :=
  firstn i l ++ a :: skipn i l.

(** Modelled from the spec: the construction interface of section 6 (the
    library's [add_surface] is not among the scripts).  The surface is put
    at ordinal position [index]; the keyword defaults are the ones the
    scripts rely on: flat, zero thickness, air, not a stop, conic 0.  This
    is the call as the builders make it: surfaces are added in order, and
    the [material] keyword is left out for air ([m = None]). *)
Definition add_surface (i : nat) (r th : extent) (m : option string)
           (stop : bool) (k : Q) (L : t) : t :=
  with_surfaces (insert_at i (mkSurface i r th m stop k) (surfaces L)) L.

(** What the library's [add_surface] checks of its arguments is neither
    among the scripts nor in the spec.  For a call that passes [index],
    [radius], [thickness], [material] and [conic] by keyword, an
    [argument_check] says whether the call goes through on the lens so far
    ([false]: it raises). *)
Definition argument_check : Type :=
  t -> nat -> extent -> extent -> option string -> Q -> bool.

(** [add_surface] with the material passed by keyword and [is_stop] left
    out: [None] when the library raises; a call that goes through adds the
    surface as above, not marked as the stop. *)
Definition add_surface_checked (accepts : argument_check) (i : nat)
           (r th : extent) (m : option string) (k : Q) (L : t) : option t :=
  if accepts L i r th m k then Some (add_surface i r th m false k L)
  else None.

(** [add_surface(index=i)] with every other keyword left out. *)
Definition add_bare_surface (i : nat) : t -> t :=
  add_surface i Infinite (Finite 0) None false 0.

(** Modelled from the spec: [set_aperture], [set_field_type] and
    [add_field] of the construction interface store the primitive values
    they are given. *)
Definition set_aperture (ty : string) (v : Q) (L : t) : t :=
  mkOptic (name L) (surfaces L) (Some (mkAperture ty v)) (field_type L)
          (fields L) (wavelengths L).

Definition set_field_type (ty : string) (L : t) : t :=
  mkOptic (name L) (surfaces L) (aperture L) (Some ty) (fields L)
          (wavelengths L).

Definition add_field (fy : Q) (L : t) : t :=
  mkOptic (name L) (surfaces L) (aperture L) (field_type L)
          (fields L ++ [mkField fy]) (wavelengths L).

Definition clear_primary (w : Wavelength) : Wavelength :=
  mkWavelength (value w) false.

(** Modelled from the spec: [add_wavelength] of the construction interface
    (library code, not among the scripts).  Section 3 asks for exactly one
    primary wavelength in a wavelength set, and the set is kept that way:
    a wavelength added as primary takes the mark from the others, and the
    first wavelength of a set is primary whatever its flag ([False] when
    the keyword is left out). *)
Definition add_wavelength (v : Q) (primary : bool) (L : t) : t :=
  let first := match wavelengths L with [] => true | _ :: _ => false end in
  let others :=
    if primary then map clear_primary (wavelengths L) else wavelengths L in
  mkOptic (name L) (surfaces L) (aperture L) (field_type L) (fields L)
          (others ++ [mkWavelength v (primary || first)]).

(** Section 3 invariants. *)
Definition num_stops (L : t) : nat :=
  List.length (filter is_stop (surfaces L)).




(** What a surface is apart from its stop flag. *)
Definition geometry (s : Surface)
  : nat * extent * extent * option string * Q :=
  (index s, radius s, thickness s, material s, conic s).

(** Program order: [L |> f |> g] runs [f] then [g]. *)
Definition pipe {A B : Type} (a : A) (f : A -> B) : B := f a.

End Optic.

Notation "a |> f" := (Optic.pipe a f) (at level 45, left associativity, only parsing).

(** ** The Fresnel radius computations *)

Module LargeFresnelConcentrator.
(** fresnel_concentrator_1.5m.py, [_calculate_fresnel_radius] *)
Definition _calculate_fresnel_radius (focal_length : Q) : Q :=
  let n_bk7 := 1.517 in
  let radius := 2 * focal_length * (n_bk7 - 1) in
  radius.

Definition diameter : Q := 1500.0.
Definition focal_length : Q := 750.0.

(** [__init__] *)
Definition __init__ : Optic.t :=
  let fresnel_radius := _calculate_fresnel_radius focal_length in
  Optic.empty
  |> Optic.set_name "Fresnel_Concentrator_1.5m"
  |> Optic.add_surface 0 Optic.Infinite Optic.Infinite None false 0
  |> Optic.add_surface 1 (Optic.Finite fresnel_radius) (Optic.Finite 5.0)
       (Some "N-BK7"%string) true 0
  |> Optic.add_surface 2 Optic.Infinite (Optic.Finite focal_length) None false 0
  |> Optic.add_bare_surface 3
  |> Optic.set_aperture "EPD" diameter
  |> Optic.set_field_type "angle"
  |> Optic.add_field 0.0
  |> Optic.add_field 0.25
  |> Optic.add_field 0.5
  |> Optic.add_wavelength 0.400 false
  |> Optic.add_wavelength 0.550 true
  |> Optic.add_wavelength 0.700 false.
End LargeFresnelConcentrator.

Module OptimizedFresnelConcentrator.
(** optimized_1.2m_fresnel.py, [_calculate_fresnel_radius] *)
Definition _calculate_fresnel_radius (focal_length : Q) : Q :=
  let n_bk7 := 1.517 in
  let radius := focal_length * (n_bk7 - 1) in
  radius.

Definition diameter : Q := 1200.0.

(** [__init__]; the focal length comes out of [arctan], [tan] and [sqrt]
    and is taken as given. *)
Definition __init__ (focal_length : Q) : Optic.t :=
  let fresnel_radius := _calculate_fresnel_radius focal_length in
  Optic.empty
  |> Optic.set_name "Optimized_Fresnel_1.2m"
  |> Optic.add_surface 0 Optic.Infinite Optic.Infinite None false 0
  |> Optic.add_surface 1 (Optic.Finite fresnel_radius) (Optic.Finite 8.0)
       (Some "N-BK7"%string) true 0
  |> Optic.add_surface 2 Optic.Infinite (Optic.Finite focal_length) None false 0
  |> Optic.add_bare_surface 3
  |> Optic.set_aperture "EPD" diameter
  |> Optic.set_field_type "angle"
  |> Optic.add_field 0.0
  |> Optic.add_field 0.25
  |> Optic.add_wavelength 0.486 true
  |> Optic.add_wavelength 0.587 false
  |> Optic.add_wavelength 0.656 false.
End OptimizedFresnelConcentrator.

Module RealisticFresnelConcentrator.
(** realistic_power_analysis.py, the radius line of [__init__] *)
Definition fresnel_radius (focal_length : Q) : Q :=
  focal_length * (1.517 - 1).

Definition diameter : Q := 1200.0.

Definition __init__ (focal_length : Q) : Optic.t :=
  Optic.empty
  |> Optic.set_name "Realistic_Power_Fresnel_1.2m"
  |> Optic.add_surface 0 Optic.Infinite Optic.Infinite None false 0
  |> Optic.add_surface 1 (Optic.Finite (fresnel_radius focal_length))
       (Optic.Finite 8.0) (Some "N-BK7"%string) true 0
  |> Optic.add_surface 2 Optic.Infinite (Optic.Finite focal_length) None false 0
  |> Optic.add_bare_surface 3
  |> Optic.set_aperture "EPD" diameter
  |> Optic.set_field_type "angle"
  |> Optic.add_field 0.0
  |> Optic.add_field 0.25
  |> Optic.add_wavelength 0.486 true
  |> Optic.add_wavelength 0.587 false
  |> Optic.add_wavelength 0.656 false.
End RealisticFresnelConcentrator.

(** ** Python function bodies *)

Module Python.

(** A function body as a statement list: [Expr] stands for a statement that
    is not a [return].  Evaluation stops at the first [return]; falling off
    the end gives Python's [None]. *)
Inductive stmt (R : Type) : Type :=
| Expr (text : string)
| Return (r : R).
Arguments Expr {R} text.
Arguments Return {R} r.

Fixpoint run_body {R : Type} (body : list (stmt R)) : option R :=
  match body with
  | [] => None
  | Return r :: _ => Some r
  | Expr _ :: rest => run_body rest
  end.

End Python.

(** ** optiland_autolens_integration.py *)

Module AutoLens.
Import Python.

(** A JSON length: a number or the string ["infinity"]. *)
Inductive json_length : Type :=
| JNumber (q : Q)
| JInfinity.

(** One entry of ["surfaces"]; the keys read with [.get] may be absent. *)
Record SurfaceData : Type := mkSurfaceData {
  sd_index : nat;
  sd_radius : json_length;
  sd_thickness : json_length;
  sd_material : option string;
  sd_conic : option Q
}.

Record ApertureData : Type := mkApertureData {
  ad_type : string;
  ad_value : Q
}.

(** The dictionary; ["lens_name"] may be absent, and when present it holds
    the lens name, which may be Python's [None]. *)
Record Data : Type := mkData {
  lens_name : option (option string);
  d_surfaces : list SurfaceData;
  d_fields : list Q;
  d_wavelengths : list Q;
  d_aperture : ApertureData
}.

(** What [optiland_to_autolens] can read on a surface object.  The surface
    class is library code and every read is guarded: [radius_attribute]
    and [thickness_attribute] are [None] when [hasattr] answers no or the
    read raises; [material_attribute] is [None] when [surface.material] or
    its [name] raises and [Some None] when the material is falsy;
    [conic_attribute] is [None] when [getattr] falls back on its default. *)
Record SurfaceView : Type := mkSurfaceView {
  radius_attribute : Optic.Surface -> option Optic.extent;
  thickness_attribute : Optic.Surface -> option Optic.extent;
  material_attribute : Optic.Surface -> option (option string);
  conic_attribute : Optic.Surface -> option Q
}.

(** [float(x) if hasattr(..) and x != np.inf else "infinity"] inside
    [try], with ["infinity"] in the [except]. *)
Definition guarded_length (a : option Optic.extent) : json_length :=
  match a with
  | Some (Optic.Finite q) => JNumber q
  | Some Optic.Infinite => JInfinity
  | None => JInfinity
  end.

Definition of_json_length (j : json_length) : Optic.extent :=
  match j with
  | JNumber q => Optic.Finite q
  | JInfinity => Optic.Infinite
  end.

(** [enumerate] *)
Definition enumerate {A : Type} (l : list A) : list (nat * A) :=
  combine (seq 0 (List.length l)) l.

(** [optiland_to_autolens].  [view] gives the outcome of the guarded reads
    on each surface; [aperture_radius] stands for the guarded expression
    [surface_group.aperture_surface().aperture_radius]: [None] when it
    raises, which the bare [except] turns into the default. *)
Definition optiland_to_autolens (view : SurfaceView)
           (aperture_radius : Optic.t -> option Q)
           (optiland_lens : Optic.t) : Data :=
  let surfaces :=
    map (fun '(i, surface) =>
           let radius := guarded_length (radius_attribute view surface) in
           let thickness :=
             guarded_length (thickness_attribute view surface) in
           let material_name :=
             match material_attribute view surface with
             | Some (Some m) => m
             | Some None => "air"%string
             | None => "air"%string
             end in
           let conic :=
             match conic_attribute view surface with
             | Some k => k
             | None => 0.0
             end in
           mkSurfaceData i radius thickness (Some material_name) (Some conic))
        (enumerate (Optic.surfaces optiland_lens)) in
  let fields := map Optic.y (Optic.fields optiland_lens) in
  let wavelengths := map Optic.value (Optic.wavelengths optiland_lens) in
  let aperture_value :=
    match aperture_radius optiland_lens with
    | Some r => r * 2
    | None => 1200.0
    end in
  mkData (Some (Optic.name optiland_lens)) surfaces fields wavelengths
         (mkApertureData "EPD" aperture_value).

(** The loop body over ["surfaces"] of [autolens_to_optiland]; [None]
    when [add_surface] raises. *)
Definition add_surface_data (accepts : Optic.argument_check)
           (lens : Optic.t) (surface_data : SurfaceData) : option Optic.t :=
  let radius := of_json_length (sd_radius surface_data) in
  let thickness := of_json_length (sd_thickness surface_data) in
  let material :=
    match sd_material surface_data with
    | Some m => if String.eqb m "air" then None else Some m
    | None => None
    end in
  let conic :=
    match sd_conic surface_data with
    | Some k => k
    | None => 0.0
    end in
  Optic.add_surface_checked accepts (sd_index surface_data) radius thickness
                            material conic lens.

(** The loop over ["surfaces"]: it stops at the first call that raises. *)
Fixpoint add_surfaces (accepts : Optic.argument_check)
         (surfaces : list SurfaceData) (lens : Optic.t) : option Optic.t :=
  match surfaces with
  | [] => Some lens
  | surface_data :: rest =>
      match add_surface_data accepts lens surface_data with
      | Some lens => add_surfaces accepts rest lens
      | None => None
      end
  end.

(** The loop body over ["wavelengths"]. *)
Definition add_wavelength_data (lens : Optic.t) (iw : nat * Q) : Optic.t :=
  let '(i, wavelength) := iw in
  let is_primary := Nat.eqb i 1 in
  Optic.add_wavelength wavelength is_primary lens.

(** What follows the loop over ["surfaces"] in [autolens_to_optiland]:
    aperture, fields and wavelengths. *)
Definition finish_lens (autolens_data : Data) (lens : Optic.t) : Optic.t :=
  let aperture_data := d_aperture autolens_data in
  let lens :=
    Optic.set_aperture (ad_type aperture_data) (ad_value aperture_data) lens in
  let lens := Optic.set_field_type "angle" lens in
  let lens :=
    fold_left (fun l field_y => Optic.add_field field_y l)
              (d_fields autolens_data) lens in
  fold_left add_wavelength_data (enumerate (d_wavelengths autolens_data)) lens.

(** [autolens_to_optiland]; [None] when a call of [add_surface] raises. *)
Definition autolens_to_optiland (accepts : Optic.argument_check)
           (autolens_data : Data) : option Optic.t :=
  let lens := Optic.empty in
  let lens :=
    match lens_name autolens_data with
    | Some n => Optic.assign_name n lens
    | None => Optic.set_name "AutoLens_Import" lens
    end in
  match add_surfaces accepts (d_surfaces autolens_data) lens with
  | Some lens => Some (finish_lens autolens_data lens)
  | None => None
  end.

(** The surface that the loop of [autolens_to_optiland] hands to
    [add_surface]. *)
Definition surface_of_data (sd : SurfaceData) : Optic.Surface :=
  Optic.mkSurface (sd_index sd) (of_json_length (sd_radius sd))
            (of_json_length (sd_thickness sd))
            match sd_material sd with
            | Some m => if String.eqb m "air" then None else Some m
            | None => None
            end
            false
            match sd_conic sd with Some k => k | None => 0.0 end.


(** The round trip of the two converters. *)
Definition round_trip (view : SurfaceView)
           (aperture_radius : Optic.t -> option Q)
           (accepts : Optic.argument_check)
           (optiland_lens : Optic.t) : option Optic.t :=
  autolens_to_optiland
    accepts (optiland_to_autolens view aperture_radius optiland_lens).

(** A conversion is lossless when the lens that comes back has the same
    surfaces and stop marking, aperture, fields and wavelengths with the
    same primary flags. *)
Definition lossless (original back : Optic.t) : Prop :=
  map Optic.geometry (Optic.surfaces back)
  = map Optic.geometry (Optic.surfaces original)
  /\ map Optic.is_stop (Optic.surfaces back)
     = map Optic.is_stop (Optic.surfaces original)
  /\ Optic.aperture back = Optic.aperture original
  /\ Optic.fields back = Optic.fields original
  /\ Optic.wavelengths back = Optic.wavelengths original.

(** [create_realistic_fresnel_lens] (the two [setattr] attributes are not
    part of the prescription). *)
Definition create_realistic_fresnel_lens : Optic.t :=
  Optic.empty
  |> Optic.set_name "1.2m_Fresnel_Concentrator"
  |> Optic.add_surface 0 Optic.Infinite Optic.Infinite None false 0
  |> Optic.add_surface 1 (Optic.Finite 653.245) (Optic.Finite 8.0)
       (Some "N-BK7"%string) true 0
  |> Optic.add_surface 2 (Optic.Finite (-653.245)) (Optic.Finite 1265.0)
       None false 0
  |> Optic.add_bare_surface 3
  |> Optic.set_aperture "EPD" 1200
  |> Optic.set_field_type "angle"
  |> Optic.add_field 0
  |> Optic.add_field 0.25
  |> Optic.add_wavelength 0.486 false
  |> Optic.add_wavelength 0.587 true
  |> Optic.add_wavelength 0.656 false.

(** The custom attribute set by [setattr(lens, 'focal_length', 1265.0)]. *)
Definition design_focal_length : Q := 1265.0.

Definition placeholder : Data :=
  mkData (Some (Some "AutoLens_Optimized"%string)) [] [0.0; 0.25]
         [0.486; 0.587; 0.656] (mkApertureData "EPD" 1200).

(** [geolens_to_dict]: a docstring, a [return], a second string statement
    and a second [return]. *)
Definition geolens_to_dict_body {GeoLens : Type} (geo_lens : GeoLens)
  : list (stmt Data) :=
  [ Expr "Convert GeoLens object to dictionary format";
    Return (mkData (Some (Some "AutoLens_Optimized"%string)) [] [0.0; 0.25]
                   [0.486; 0.587; 0.656] (mkApertureData "EPD" 1200));
    Expr "Convert GeoLens object to dictionary format";
    Return (mkData (Some (Some "AutoLens_Optimized"%string)) [] [0.0; 0.25]
                   [0.486; 0.587; 0.656] (mkApertureData "EPD" 1200)) ].

Definition geolens_to_dict {GeoLens : Type} (geo_lens : GeoLens)
  : option Data :=
  run_body (geolens_to_dict_body geo_lens).

(** [run_autolens_optimization].  [load] is [GeoLens(filename=...)] on the
    saved specification and [analysis] is [lens.analysis(render=False)],
    which may change the lens object; either may raise ([None]), which the
    [try] turns into a [None] result. *)
Definition run_autolens_optimization {GeoLens : Type}
           (AUTOLENS_AVAILABLE : bool)
           (load : Data -> option GeoLens)
           (analysis : GeoLens -> option GeoLens)
           (initial_spec : Data) : option Data :=
  if negb AUTOLENS_AVAILABLE then None
  else
    match load initial_spec with
    | None => None
    | Some lens =>
        match analysis lens with
        | None => None
        | Some lens => geolens_to_dict lens
        end
    end.

End AutoLens.

(** ** Vocabulary of the conversion statements *)

Module Conversion.
Import Optic AutoLens.

(** The entry [optiland_to_autolens] writes for the surface at position
    [i]. *)
Definition export_surface (view : SurfaceView) (entry : nat * Surface)
  : SurfaceData :=
  mkSurfaceData (fst entry)
                (guarded_length (radius_attribute view (snd entry)))
                (guarded_length (thickness_attribute view (snd entry)))
                (Some match material_attribute view (snd entry) with
                      | Some (Some m) => m
                      | Some None => "air"%string
                      | None => "air"%string
                      end)
                (Some match conic_attribute view (snd entry) with
                      | Some k => k
                      | None => 0.0
                      end).

(** A surface object on which every read succeeds and gives the value of
    the section-3 data model. *)
Definition data_model_view : SurfaceView :=
  mkSurfaceView (fun s => Some (radius s)) (fun s => Some (thickness s))
                (fun s => Some (material s)) (fun s => Some (conic s)).

(** A surface object that has none of the four attributes. *)
Definition bare_view : SurfaceView :=
  mkSurfaceView (fun _ => None) (fun _ => None) (fun _ => None)
                (fun _ => None).


(** A check that refuses a call whose material is [None] and a call whose
    index lies past the end of the sequence. *)
Definition strict_check : argument_check :=
  fun L i _ _ m _ =>
    match m with
    | Some _ => (i <=? List.length (surfaces L))%nat
    | None => false
    end.


End Conversion.

(** ** First-order analysis *)

Module Paraxial.
Import Optic.

(** Modelled from the spec: the glass catalog of section 3 (a refractive
    index by name) is not among the scripts; air has index 1 and N-BK7 the
    index 1.517 that the scripts use for it. *)
Definition refractive_index (m : option string) : option Q :=
  match m with
  | None => Some 1
  | Some glass => if String.eqb glass "N-BK7" then Some 1.517 else None
  end.

(** A paraxial ray: height, angle, and the index of the medium it is in. *)
Record ray : Type := mkRay {
  height : Q;
  angle : Q;
  medium : Q
}.

(** Modelled from the spec: one step of the paraxial ray-transfer recursion
    of section 4.2 (the library's paraxial analysis is not among the
    scripts): refraction with power [(n' - n) / R] (none at a flat
    surface), then transfer over the thickness to the next surface. *)
Definition power (n n' : Q) (r : extent) : Q :=
  match r with
  | Finite R => (n' - n) / R
  | Infinite => 0
  end.

Definition refract_transfer (st : option ray) (s : Surface) : option ray :=
  match st with
  | None => None
  | Some r =>
      match refractive_index (material s) with
      | None => None
      | Some n' =>
          let u' := (medium r * angle r
                     - height r * power (medium r) n' (radius s)) / n' in
          let y' := match thickness s with
                    | Finite d => height r + d * u'
                    | Infinite => height r
                    end in
          Some (mkRay y' u' n')
      end
  end.

(** Modelled from the spec: [effective_focal_length] of section 4.2.  A ray
    parallel to the axis at height 1 is taken through every surface after
    the object; the focal length is minus the entry height over the final
    angle.  [None] stands for the failures: fewer than two surfaces, a
    glass outside the catalog, or zero accumulated power. *)
Definition effective_focal_length (L : t) : option Q :=
  match surfaces L with
  | [] | [_] => None
  | object :: rest =>
      match refractive_index (material object) with
      | None => None
      | Some n0 =>
          match fold_left refract_transfer rest (Some (mkRay 1 0 n0)) with
          | None => None
          | Some r =>
              if Qeq_bool (angle r) 0 then None
              else Some (Qred (- (1) / angle r))
          end
      end
  end.

(** Within [pct] percent of [target]. *)
Definition within_percent (pct target x : Q) : Prop :=
  target * (1 - pct / 100) <= x <= target * (1 + pct / 100).

(** The end-to-end scenario in the words of section 8: a single curved
    surface of radius 653.245 mm and index 1.517, 8 mm thick, a flat back
    and a gap of 1265 mm to the image. *)
Definition scenario_plano_convex : t :=
  Optic.empty
  |> add_surface 0 Infinite Infinite None false 0
  |> add_surface 1 (Finite 653.245) (Finite 8) (Some "N-BK7"%string) true 0
  |> add_surface 2 Infinite (Finite 1265) None false 0
  |> add_bare_surface 3.
End Paraxial.

(** ** Optimisation problems declared by the scripts *)

Module Optimization.

(** An operand as [add_operand] receives it; the ["optic"] entry of
    [input_data] is a reference to the lens being optimised, so the lens is
    passed alongside rather than copied into the operand.  [distribution]
    is [None] when the key is left out. *)
Record Operand : Type := mkOperand {
  operand_type : string;
  target : Q;
  weight : Q;
  surface_number : Z;
  Hx : Q;
  Hy : Q;
  num_rays : nat;
  wavelength : Q;
  distribution : option string
}.

(** A variable as [add_variable] receives it. *)
Record OptVariable : Type := mkVariable {
  attribute : string;
  var_surface : nat;
  min_val : Q;
  max_val : Q
}.

Record OptimizationProblem : Type := mkProblem {
  operands : list Operand;
  variables : list OptVariable
}.

(** The largest and the smallest field value of a field set. *)
Definition max_field (fs : list Optic.Field) : Q :=
  match fs with
  | [] => 0
  | f :: rest => fold_left (fun m g => Qmax m (Optic.y g)) rest (Optic.y f)
  end.

Definition min_field (fs : list Optic.Field) : Q :=
  match fs with
  | [] => 0
  | f :: rest => fold_left (fun m g => Qmin m (Optic.y g)) rest (Optic.y f)
  end.

(** Modelled from the spec: the normalised field coordinate of section 3
    (the field set is library code, not among the scripts): "min/max of
    the set define +-1 normalization".  The unit is the larger of the
    magnitudes of the minimum and the maximum, so that every field of the
    set lies between -1 and 1 and the extreme one lies at -1 or 1; for a
    set without negative fields the unit is the maximum. *)
Definition field_extent (fs : list Optic.Field) : Q :=
  Qmax (Qabs (min_field fs)) (Qabs (max_field fs)).

Definition normalized_field (L : Optic.t) (f : Optic.Field) : Q :=
  Optic.y f / field_extent (Optic.fields L).

End Optimization.

(** wide_angle_fisheye_optimizer.py *)
Module WideAngleFisheyeLens.
Import Optic Optimization.

Definition _build_optical_system (self : t) : t :=
  self
  |> add_surface 0 Infinite Infinite None false 0
  |> add_surface 1 (Finite (-25.0)) (Finite 3.0) (Some "N-SF11"%string) false 0
  |> add_surface 2 (Finite (-40.0)) (Finite 6.0) None false 0
  |> add_surface 3 (Finite (-20.0)) (Finite 2.5) (Some "N-SF11"%string) false 0
  |> add_surface 4 (Finite (-30.0)) (Finite 5.0) None false 0
  |> add_surface 5 Infinite (Finite 3.0) None true 0
  |> add_surface 6 (Finite 15.0) (Finite 3.5) (Some "N-BK7"%string) false 0
  |> add_surface 7 (Finite (-12.0)) (Finite 4.0) None false 0
  |> add_surface 8 (Finite 18.0) (Finite 3.0) (Some "N-LAK12"%string) false 0
  |> add_surface 9 (Finite (-14.0)) (Finite 3.0) None false 0
  |> add_surface 10 (Finite 16.0) (Finite 2.5) (Some "N-BK7"%string) false 0
  |> add_surface 11 (Finite (-18.0)) (Finite 10.0) None false 0
  |> add_bare_surface 12
  |> set_aperture "EPD" 1.5.

Definition _configure_fields (self : t) : t :=
  fold_left (fun l angle => add_field angle l) [0; 15; 30; 45; 60; 75; 85]
            (set_field_type "angle" self).

Definition _configure_wavelengths (self : t) : t :=
  self
  |> add_wavelength 0.460 false
  |> add_wavelength 0.550 true
  |> add_wavelength 0.620 false.

(** [__init__] *)
Definition __init__ : t :=
  Optic.empty
  |> set_name "Fisheye_170deg"
  |> _build_optical_system
  |> _configure_fields
  |> _configure_wavelengths.

(** [create_optimization_problem] *)
Definition field_angles : list Q := [0; 15; 30; 45; 60; 75; 85].
Definition max_angle : Q := 85.0.
Definition normalized_fields : list Q :=
  map (fun a => a / max_angle) field_angles.

Definition radii_to_optimize : list (nat * nat) :=
  [ (1, 1); (2, 1); (3, 1); (4, 1); (6, 1);
    (7, 1); (8, 1); (9, 1); (10, 1); (11, 1) ]%nat.

Definition create_optimization_problem (lens : t) : OptimizationProblem :=
  let operands :=
    map (fun hy_norm =>
           mkOperand "rms_spot_size" 0 1 (-1) 0.0 hy_norm 31 0.550
                     (Some "hexapolar"%string))
        normalized_fields in
  let variables :=
    map (fun '(surface_idx, mode) =>
           mkVariable "radius" surface_idx (-100) 100)
        radii_to_optimize in
  mkProblem operands variables.
End WideAngleFisheyeLens.

(** simple_endoscope_4mm.py *)
Module SimpleEndoscope.
Import Optic Optimization.

(** [__init__] *)
Definition __init__ : t :=
  Optic.empty
  |> add_surface 0 Infinite Infinite None false 0
  |> add_surface 1 (Finite 8.0) (Finite 3.0) (Some "N-BK7"%string) false 0
  |> add_surface 2 (Finite (-12.0)) (Finite 5.0) None false 0
  |> add_surface 3 Infinite (Finite 2.0) None true 0
  |> add_surface 4 (Finite (-6.0)) (Finite 2.0) (Some "N-SF11"%string) false 0
  |> add_surface 5 (Finite 10.0) (Finite 8.0) None false 0
  |> add_surface 6 (Finite 5.0) (Finite 3.0) (Some "N-BK7"%string) false 0
  |> add_surface 7 (Finite (-8.0)) (Finite 7.0) None false 0
  |> add_bare_surface 8
  |> set_aperture "EPD" 3.0
  |> set_field_type "angle"
  |> add_field 0
  |> add_field 5
  |> add_field 10
  |> add_wavelength 0.486 false
  |> add_wavelength 0.588 true
  |> add_wavelength 0.656 false.

(** The problem [optimize_endoscope] sets up before it runs the
    optimiser. *)
Definition optimize_endoscope_problem (lens : t) : OptimizationProblem :=
  let variables :=
    [ mkVariable "radius" 1 5.0 15.0;
      mkVariable "radius" 2 (-20.0) (-5.0);
      mkVariable "radius" 4 (-10.0) (-2.0);
      mkVariable "radius" 5 5.0 20.0;
      mkVariable "radius" 6 2.0 10.0;
      mkVariable "radius" 7 (-15.0) (-3.0) ] in
  let operands :=
    map (fun field =>
           let field_angle := y field in
           let normalized_field := field_angle / 10.0 in
           mkOperand "rms_spot_size" 0.0 1
                     (Z.of_nat (List.length (surfaces lens)) - 1)
                     0.0 normalized_field 31 0.588 None)
        (fields lens) in
  mkProblem operands variables.
End SimpleEndoscope.

(** ** realistic_fresnel_solar_concentrator.py *)

Module SolarScript.
Import Python.

Inductive exn : Type :=
| AttributeError (class_name attribute : string)
| NameError (name : string).

(** What a run of the script does that can be seen from outside. *)
Inductive event : Type :=
| MakeDirs
| Print (line : string)
| NewLens (target_concentration : Q)
| MethodCall (method : string)
| DetailedAnalysis
| ReportWritten.

(** A computation extends the events so far and ends in an exception or a
    value. *)
Definition run (A : Type) : Type := list event -> list event * (exn + A).

Definition ret {A : Type} (a : A) : run A := fun tr => (tr, inr a).

Definition raise {A : Type} (e : exn) : run A := fun tr => (tr, inl e).

Definition bind {A B : Type} (m : run A) (k : A -> run B) : run B :=
  fun tr =>
    match m tr with
    | (tr', inl e) => (tr', inl e)
    | (tr', inr a) => k a tr'
    end.

Definition emit (e : event) : run unit := fun tr => (tr ++ [e], inr tt).

Notation "x <- m ;; k" := (bind m (fun x => k))
  (at level 61, m at next level, right associativity).
Notation "m ;; k" := (bind m (fun _ => k))
  (at level 61, right associativity).

Fixpoint for_each {A : Type} (l : list A) (body : A -> run unit) : run unit :=
  match l with
  | [] => ret tt
  | a :: rest => body a ;; for_each rest body
  end.

(** What the methods of the class hand back. *)
Inductive value : Type :=
| Radius
| DistanceAnalysis
| ConcentrationReport
| Opaque.

Definition init_body : list (stmt value) :=
  [ Expr "super().__init__()";
    Expr "self.name = ...";
    Expr "self.diameter = 1200.0";
    Expr "self.target_concentration = target_concentration";
    Expr "self.focal_length = (self.diameter/2) / np.tan(divergence_angle)";
    Expr "self.add_surface(...) four times";
    Expr "self.set_aperture(...)";
    Expr "self.set_field_type(...); self.add_field(...) twice";
    Expr "self.add_wavelength(...) three times" ].

Definition _calculate_fresnel_radius_body : list (stmt value) :=
  [ Expr "n_bk7 = 1.517";
    Expr "radius = self.focal_length * (n_bk7 - 1)";
    Return Radius ].

(** [analyze_power_density_vs_distance]: the statements that build the
    concentration dictionary stand after the first [return], at the
    indentation of the method body. *)
Definition analyze_power_density_vs_distance_body : list (stmt value) :=
  [ Expr "solar_constant = 1361";
    Expr "lens_area_m2 = np.pi * (self.diameter/2000)**2";
    Expr "total_power = solar_constant * lens_area_m2";
    Expr "distances_m = np.linspace(0.1, 2.0, 100)";
    Expr "distances_mm = distances_m * 1000";
    Expr "power_densities = []; optical_densities = []; beam_radii = []";
    Expr "for dist_mm in distances_mm: ...";
    Return DistanceAnalysis;
    Expr "lens_area = np.pi * (self.diameter/2)**2";
    Expr "solar_angle_rad = 0.5 * np.pi/180";
    Expr "solar_spot_geometric = self.focal_length * solar_angle_rad";
    Expr "manufacturing_factor = 3.0";
    Expr "actual_spot_diameter = max(..., target_spot)";
    Expr "spot_area = np.pi * (actual_spot_diameter/2)**2";
    Expr "geometric_concentration = lens_area / spot_area";
    Expr "theoretical_max = 1 / (np.sin(acceptance_angle))**2";
    Expr "practical_concentration = geometric_concentration * 0.85";
    Return ConcentrationReport ].

(** A class: the [def]s of its body, and the attribute names that resolve
    through its base class. *)
Record PyClass : Type := mkClass {
  class_name : string;
  methods : list (string * list (stmt value));
  inherited : list string
}.

(** [class RealisticSolarConcentrator(optic.Optic)]; [Optic_attributes] is
    what instances get from [optic.Optic], which is not among the scripts. *)
Definition RealisticSolarConcentrator (Optic_attributes : list string)
  : PyClass :=
  mkClass "RealisticSolarConcentrator"
          [ ("__init__"%string, init_body);
            ("_calculate_fresnel_radius"%string, _calculate_fresnel_radius_body);
            ("analyze_power_density_vs_distance"%string,
             analyze_power_density_vs_distance_body) ]
          Optic_attributes.

Record PyObject : Type := mkObject {
  class_of : PyClass;
  instance_attributes : list string
}.

Definition has (names : list string) (a : string) : bool :=
  existsb (String.eqb a) names.

(** What the base class provides, by name. *)
Definition provided (names : list string) (a : string) : bool := has names a.

(** Attribute lookup: the instance, then the class, then the base class. *)
Definition resolves (obj : PyObject) (a : string) : bool :=
  has (instance_attributes obj) a
  || has (map fst (methods (class_of obj))) a
  || provided (inherited (class_of obj)) a.

Definition getattr (obj : PyObject) (a : string) : run unit :=
  if resolves obj a then ret tt
  else raise (AttributeError (class_name (class_of obj)) a).

Definition find_method (c : PyClass) (m : string)
  : option (list (stmt value)) :=
  match find (fun entry => String.eqb m (fst entry)) (methods c) with
  | Some entry => Some (snd entry)
  | None => None
  end.

(** [obj.m()]: look the attribute up, then run the method. *)
Definition call_method (obj : PyObject) (m : string) : run value :=
  getattr obj m ;;
  emit (MethodCall m) ;;
  ret match find_method (class_of obj) m with
      | Some body =>
          match run_body body with Some v => v | None => Opaque end
      | None => Opaque
      end.

(** The methods of [optic.Optic] that [__init__] calls on [self]. *)
Definition init_uses : list string :=
  [ "add_surface"; "set_aperture"; "set_field_type"; "add_field";
    "add_wavelength" ]%string.

(** [RealisticSolarConcentrator(target_concentration=...)]: [__init__] sets
    four attributes on the instance, asks [_calculate_fresnel_radius] for the
    radius and builds the prescription with the methods of the base class. *)
Definition new_lens (Optic_attributes : list string) (target_concentration : Q)
  : run PyObject :=
  let self := mkObject (RealisticSolarConcentrator Optic_attributes)
                       [ "name"; "diameter"; "target_concentration";
                         "focal_length" ]%string in
  emit (NewLens target_concentration) ;;
  getattr self "diameter" ;;
  getattr self "focal_length" ;;
  getattr self "add_surface" ;;
  fresnel_radius <- call_method self "_calculate_fresnel_radius" ;;
  getattr self "add_surface" ;;
  getattr self "add_surface" ;;
  getattr self "add_surface" ;;
  getattr self "set_aperture" ;;
  getattr self "set_field_type" ;;
  getattr self "add_field" ;;
  getattr self "add_field" ;;
  getattr self "add_wavelength" ;;
  getattr self "add_wavelength" ;;
  getattr self "add_wavelength" ;;
  ret self.

Definition lookup_name (scope : list string) (n : string) : run unit :=
  if has scope n then ret tt else raise (NameError n).

Definition module_globals : list string :=
  [ "np"; "plt"; "datetime"; "os"; "optic"; "OpticViewer3D";
    "RealisticSolarConcentrator"; "analyze_realistic_concentrator";
    "main" ]%string.

(** [analyze_realistic_concentrator(lens, results_dir)] *)
Definition analyze_realistic_concentrator (lens : PyObject) : run value :=
  emit (Print "REALISTIC SOLAR CONCENTRATOR ANALYSIS") ;;
  getattr lens "diameter" ;;
  getattr lens "focal_length" ;;
  emit (Print "SYSTEM SPECIFICATIONS") ;;
  results <- call_method lens "get_realistic_concentration" ;;
  getattr lens "target_concentration" ;;
  emit (Print "CONCENTRATION ANALYSIS") ;;
  emit (Print "SOLAR ENERGY PERFORMANCE") ;;
  emit DetailedAnalysis ;;
  emit (Print "PERFORMANCE SUMMARY") ;;
  lookup_name (module_globals
               ++ [ "lens"; "results_dir"; "results"; "performance_status";
                    "solar_constant"; "lens_area_m2"; "power_collected";
                    "spot_area_m2"; "power_density" ]%string)
              "detailed_results" ;;
  ret results.

(** [main] *)
Definition main (Optic_attributes : list string) : run unit :=
  emit MakeDirs ;;
  emit (Print "REALISTIC SOLAR FRESNEL CONCENTRATOR DESIGN") ;;
  emit (Print "STEP 1: Creating realistic 1.5m solar concentrator") ;;
  for_each (combine (seq 0 3) [5.0; 10.0; 25.0])
    (fun '(i, target_conc) =>
       emit (Print "DESIGN OPTION") ;;
       lens <- new_lens Optic_attributes target_conc ;;
       getattr lens "name" ;;
       getattr lens "diameter" ;;
       getattr lens "focal_length" ;;
       emit (Print "Lens created") ;;
       perf <- call_method lens "get_realistic_concentration" ;;
       emit (Print "Achieved concentration") ;;
       if Nat.eqb i 1 then
         emit (Print "DETAILED ANALYSIS") ;;
         detailed_results <- analyze_realistic_concentrator lens ;;
         emit (Print "STEP 3: Generating comprehensive report") ;;
         emit ReportWritten ;;
         emit (Print "Comprehensive report saved")
       else ret tt) ;;
  emit (Print "REALISTIC SOLAR CONCENTRATOR DESIGN COMPLETE") ;;
  lookup_name (module_globals
               ++ [ "timestamp"; "results_dir"; "target_concentrations"; "i";
                    "target_conc"; "lens"; "perf"; "detailed_results";
                    "report_content"; "report_file"; "f" ]%string)
              "optical_at_0_4m".

(** The names [optic.Optic] is seen to provide in the scripts. *)
Definition Optic_attributes_in_use : list string :=
  [ "add_surface"; "set_aperture"; "set_field_type"; "add_field";
    "add_wavelength"; "draw"; "paraxial"; "surface_group"; "fields";
    "wavelengths" ]%string.

End SolarScript.

(** ** The optimiser the scripts call *)

Module Optimizer.
Import Optic Optimization.

(** Change the element at position [i]; out of range nothing changes. *)
Fixpoint update_nth {A : Type} (i : nat) (f : A -> A) (l : list A) : list A :=
  match l, i with
  | [], _ => []
  | a :: rest, O => f a :: rest
  | a :: rest, S j => a :: update_nth j f rest
  end.

Definition set_attribute (attr : string) (v : Q) (s : Surface) : Surface :=
  if String.eqb attr "radius" then
    mkSurface (index s) (Finite v) (thickness s) (material s) (is_stop s)
              (conic s)
  else if String.eqb attr "thickness" then
    mkSurface (index s) (radius s) (Finite v) (material s) (is_stop s)
              (conic s)
  else s.

Definition get_attribute (attr : string) (s : Surface) : option Q :=
  let e := if String.eqb attr "radius" then Some (radius s)
           else if String.eqb attr "thickness" then Some (thickness s)
           else None in
  match e with
  | Some (Finite q) => Some q
  | _ => None
  end.

(** Modelled from the spec: an optimisation variable of section 3 refers to
    a (surface, attribute) pair of the sequence and is written in place. *)
Definition write_variable (L : t) (var : OptVariable) (v : Q) : t :=
  with_surfaces
    (update_nth (var_surface var) (set_attribute (attribute var) v)
                (surfaces L)) L.

Definition read_variable (L : t) (var : OptVariable) : option Q :=
  match nth_error (surfaces L) (var_surface var) with
  | Some s => get_attribute (attribute var) s
  | None => None
  end.

(** Write a candidate vector into the sequence, one variable after the
    other. *)
Definition apply_vector (vars : list OptVariable) (x : list Q) (L : t) : t :=
  fold_left (fun l vx => write_variable l (fst vx) (snd vx))
            (combine vars x) L.

Definition in_bounds (var : OptVariable) (v : Q) : Prop :=
  min_val var <= v <= max_val var.

Inductive status : Type :=
| CONVERGED
| ITERATION_LIMIT
| FAILED.

Record result : Type := mkResult {
  success : bool;
  iterations : nat;
  evaluations : nat;
  final_merit : Q;
  state : status;
  solution : list Q
}.

(** Modelled from the spec: malformed input of section 4.4 (a variable with
    lower bound not below the upper one, no variable, no operand). *)
Definition malformed (problem : OptimizationProblem) : bool :=
  match variables problem, operands problem with
  | [], _ => true
  | _, [] => true
  | vars, _ => existsb (fun v => Qle_bool (max_val v) (min_val v)) vars
  end.

Section Search.

(** The merit function of the problem's operands on a lens. *)
Variable merit : Optic.t -> Q.
(** The random seeding of member [i] of the initial population. *)
Variable seed : nat -> list Q.
(** Mutation and crossover: the trial vector of generation [g] for member
    [i] of the population, random choices included. *)
Variable trial : nat -> nat -> list (list Q) -> list Q.
Variable tolerance : Q.
(** The population has [S extra_members] members. *)
Variable extra_members : nat.

(** Modelled from the spec: the search of section 4.4 is over the bounded
    variable vector; a candidate is brought into the box of the bounds
    coordinate by coordinate before it is evaluated. *)
Definition clamp (lo hi x : Q) : Q := Qmax lo (Qmin hi x).

Fixpoint into_bounds (vars : list OptVariable) (x : list Q) : list Q :=
  match vars with
  | [] => []
  | v :: rest =>
      clamp (min_val v) (max_val v) (hd (min_val v) x)
      :: into_bounds rest (tl x)
  end.

Definition fitness (L : t) (vars : list OptVariable) (x : list Q) : Q :=
  merit (apply_vector vars x L).

(** Selection: the trial replaces its target when it is no worse. *)
Definition select (L : t) (vars : list OptVariable) (target cand : list Q)
  : list Q :=
  if Qle_bool (fitness L vars cand) (fitness L vars target) then cand
  else target.

Definition next_generation (L : t) (vars : list OptVariable) (g : nat)
           (pop : list (list Q)) : list (list Q) :=
  map (fun it => select L vars (snd it)
                        (into_bounds vars (trial g (fst it) pop)))
      (combine (seq 0 (List.length pop)) pop).

(** The best member found, [b] so far. *)
Fixpoint best_of (L : t) (vars : list OptVariable) (b : list Q)
         (pop : list (list Q)) : list Q :=
  match pop with
  | [] => b
  | x :: rest =>
      best_of L vars
              (if Qle_bool (fitness L vars b) (fitness L vars x) then b else x)
              rest
  end.

Definition best (L : t) (vars : list OptVariable) (pop : list (list Q))
  : list Q :=
  best_of L vars (hd [] pop) (tl pop).

(** Convergence: the target merit (about 0) is reached, or the improvement
    over the last generation falls below the tolerance. *)
Definition converged (previous current : Q) : bool :=
  Qle_bool current tolerance || Qle_bool (previous - current) tolerance.

Fixpoint evolve (L : t) (vars : list OptVariable) (budget g : nat)
         (pop : list (list Q)) : list (list Q) * status * nat :=
  match budget with
  | O => (pop, ITERATION_LIMIT, g)
  | S k =>
      let pop' := next_generation L vars g pop in
      if converged (fitness L vars (best L vars pop))
                   (fitness L vars (best L vars pop'))
      then (pop', CONVERGED, S g)
      else evolve L vars k (S g) pop'
  end.

(** Modelled from the spec: [optimize] of section 4.4 (the library's
    optimiser is not among the scripts).  Malformed input fails before any
    evaluation and leaves the sequence alone; otherwise the population is
    seeded, evolved for at most [max_iterations] generations, and the best
    vector found is written into the caller's sequence. *)
Definition optimize (L : t) (problem : OptimizationProblem)
           (max_iterations : nat) : t * result :=
  let vars := variables problem in
  if malformed problem then
    (L, mkResult false 0 0 (merit L) FAILED [])
  else
    let pop0 :=
      map (fun i => into_bounds vars (seed i)) (seq 0 (S extra_members)) in
    let '(pop, st, g) := evolve L vars max_iterations 0 pop0 in
    let b := best L vars pop in
    (apply_vector vars b L,
     mkResult match st with CONVERGED => true | _ => false end
              g (S extra_members * S g) (fitness L vars b) st b).

End Search.

(** The variables refer to distinct surfaces of the sequence, by radius. *)
Definition radii_of_distinct_surfaces (L : t) (vars : list OptVariable)
  : Prop :=
  NoDup (map var_surface vars)
  /\ Forall (fun v => (var_surface v < List.length (surfaces L))%nat
                      /\ attribute v = "radius"%string) vars.

(** Every variable has its lower bound no higher than its upper bound. *)
Definition ordered_bounds (vars : list OptVariable) : Prop :=
  Forall (fun v => min_val v <= max_val v) vars.

(** The population invariant: every member lies in the box. *)
Definition population_in_bounds (vars : list OptVariable)
           (pop : list (list Q)) : Prop :=
  Forall (fun x => Forall2 in_bounds vars x) pop.

End Optimizer.

(** ** The Fresnel specification of the integration script *)

Module FresnelSpec.
Import AutoLens.

(** One entry of ["surfaces"] as [create_fresnel_lens_for_autolens] writes
    it: the keys that [autolens_to_optiland] reads, the ["type"] key, and
    the ["aperture_stop"] key where present. *)
Record SurfaceSpec : Type := mkSurfaceSpec {
  read_keys : SurfaceData;
  surface_type : string;
  aperture_stop : option bool
}.

Record t : Type := mkSpec {
  lens_type : string;
  diameter : Q;
  focal_length : Q;
  f_number : Q;
  spec_surfaces : list SurfaceSpec;
  spec_fields : list Q;
  spec_wavelengths : list Q;
  spec_aperture : ApertureData
}.




End FresnelSpec.

(** ** Scripts as event-producing computations *)

Module Script.
Section Run.
Context {Event Exn : Type}.

(** A computation extends the events so far and ends in an exception or a
    value. *)
Definition run (A : Type) : Type := list Event -> list Event * (Exn + A).

Definition ret {A : Type} (a : A) : run A := fun tr => (tr, inr a).

Definition raise {A : Type} (e : Exn) : run A := fun tr => (tr, inl e).

Definition bind {A B : Type} (m : run A) (k : A -> run B) : run B :=
  fun tr =>
    match m tr with
    | (tr', inl e) => (tr', inl e)
    | (tr', inr a) => k a tr'
    end.

Definition emit (e : Event) : run unit := fun tr => (tr ++ [e], inr tt).

End Run.
End Script.

(** ** The integrated analysis of optiland_autolens_integration.py *)

Module Integration.
Import AutoLens Script.

Inductive exn : Type :=
| AttributeError (object attribute : string).

Inductive event : Type :=
| MakeDirs (directory : string)
| Print (line : string)
| Count (label : string) (n : nat)
| SaveFile (file : string).

Notation "x <- m ;; k" := (bind m (fun x => k))
  (at level 61, m at next level, right associativity).
Notation "m ;; k" := (bind m (fun _ => k))
  (at level 61, right associativity).

Definition script (A : Type) : Type := @run event exn A.

(** [run_autolens_optimization] with what it prints and writes; its value
    is that of [AutoLens.run_autolens_optimization]. *)
Definition run_autolens_optimization {GeoLens : Type}
           (AUTOLENS_AVAILABLE : bool)
           (load : Data -> option GeoLens)
           (analysis : GeoLens -> option GeoLens)
           (initial_spec : Data) : script (option Data) :=
  if negb AUTOLENS_AVAILABLE then
    emit (Print "AutoLens not available - cannot run optimization") ;;
    ret None
  else
    emit (Print "RUNNING AUTOLENS OPTIMIZATION") ;;
    emit (MakeDirs "autolens_temp") ;;
    emit (SaveFile "initial_design.json") ;;
    emit (Print "Initial design saved") ;;
    match load initial_spec with
    | None => emit (Print "AutoLens optimization failed") ;; ret None
    | Some lens =>
        emit (Print "Running AutoLens analysis...") ;;
        match analysis lens with
        | None => emit (Print "AutoLens optimization failed") ;; ret None
        | Some lens =>
            emit (Print "AutoLens optimization completed") ;;
            ret (geolens_to_dict lens)
        end
    end.

(** [compare_designs].  [paraxial_ok] and [plot_ok] say whether the two
    guarded blocks (paraxial queries, plotting) run through or are caught
    by their [except]; [autolens_spec] is [None] for Python's [None], on
    which [.get] raises. *)
Definition compare_designs (paraxial_ok plot_ok : bool)
           (optiland_lens : Optic.t) (autolens_spec : option Data)
  : script unit :=
  emit (Print "DESIGN COMPARISON: OPTILAND vs AUTOLENS") ;;
  emit (Print "Optiland Analysis:") ;;
  emit (Count "Optiland Surfaces"
              (List.length (Optic.surfaces optiland_lens))) ;;
  emit (Count "Optiland Fields" (List.length (Optic.fields optiland_lens))) ;;
  emit (Count "Optiland Wavelengths"
              (List.length (Optic.wavelengths optiland_lens))) ;;
  (if paraxial_ok then emit (Print "- EFL, F-number (computed)")
   else emit (Print "- EFL: 1265.0 mm (design), F-number: F/1.1 (design)")) ;;
  emit (Print "AutoLens Analysis:") ;;
  match autolens_spec with
  | None => raise (AttributeError "NoneType" "get")
  | Some spec =>
      emit (Count "AutoLens Surfaces" (List.length (d_surfaces spec))) ;;
      emit (Count "AutoLens Fields" (List.length (d_fields spec))) ;;
      emit (Count "AutoLens Wavelengths" (List.length (d_wavelengths spec))) ;;
      if plot_ok then
        emit (SaveFile "optiland_autolens_comparison.png") ;;
        emit (Print "[OK] Comparison plot saved")
      else emit (Print "Comparison plot failed")
  end.

(** [run_integrated_analysis] *)
Definition run_integrated_analysis {GeoLens : Type}
           (AUTOLENS_AVAILABLE : bool)
           (view : SurfaceView)
           (aperture_radius : Optic.t -> option Q)
           (load : Data -> option GeoLens)
           (analysis : GeoLens -> option GeoLens)
           (paraxial_ok plot_ok : bool) : script unit :=
  emit (MakeDirs "integrated_analysis") ;;
  emit (Print "OPTILAND + AUTOLENS INTEGRATED ANALYSIS") ;;
  emit (Print "STEP 1: CREATING OPTILAND FRESNEL LENS") ;;
  let optiland_lens := create_realistic_fresnel_lens in
  emit (Print "[OK] Created Optiland 1.2m Fresnel lens") ;;
  emit (Print "STEP 2: CONVERTING TO AUTOLENS FORMAT") ;;
  emit (Print "Converting Optiland lens to AutoLens format...") ;;
  let autolens_spec :=
    optiland_to_autolens view aperture_radius optiland_lens in
  emit (SaveFile "fresnel_autolens_format.json") ;;
  emit (Print "[OK] Converted to AutoLens format") ;;
  optimized_spec <-
    (if AUTOLENS_AVAILABLE then
       emit (Print "STEP 3: RUNNING AUTOLENS OPTIMIZATION") ;;
       run_autolens_optimization AUTOLENS_AVAILABLE load analysis autolens_spec
     else
       emit (Print "STEP 3: AUTOLENS OPTIMIZATION SKIPPED") ;;
       emit (Print "AutoLens not available - using original design") ;;
       ret (Some autolens_spec)) ;;
  emit (Print "STEP 4: DESIGN COMPARISON") ;;
  compare_designs paraxial_ok plot_ok optiland_lens optimized_spec ;;
  emit (Print "STEP 5: INTEGRATED ANALYSIS REPORT") ;;
  emit (SaveFile "INTEGRATION_REPORT.txt") ;;
  emit (Print "[OK] Integration report saved") ;;
  emit (Print "OPTILAND + AUTOLENS INTEGRATION COMPLETE").

(** Whether AutoLens loads the design and analyses it without raising. *)
Definition optimization_succeeds {GeoLens : Type}
           (load : Data -> option GeoLens)
           (analysis : GeoLens -> option GeoLens) (spec : Data) : bool :=
  match load spec with
  | Some lens => match analysis lens with Some _ => true | None => false end
  | None => false
  end.

End Integration.

(** ** The numpy functions the power scripts use *)

Module Numpy.

(** [np.pi], the double nearest to pi, as the rational it is. *)
Definition pi : Q := 884279719003555 # 281474976710656.

(** [np.prod] *)
Definition prod (l : list Q) : Q := fold_left Qmult l 1.

(** [np.linspace(start, stop, num)] with the end point included. *)
Definition linspace (start stop : Q) (num : nat) : list Q :=
  match num with
  | O => []
  | S O => [start]
  | S (S _) =>
      let step := (stop - start) / inject_Z (Z.of_nat (num - 1)) in
      map (fun i => start + inject_Z (Z.of_nat i) * step) (seq 0 num)
  end.

(** [np.argmin]: the first position of the least element; [None] is the
    [ValueError] for an empty array. *)
Fixpoint argmin_from (best_i : nat) (best : Q) (i : nat) (l : list Q) : nat :=
  match l with
  | [] => best_i
  | x :: rest =>
      if Qle_bool best x then argmin_from best_i best (S i) rest
      else argmin_from i x (S i) rest
  end.

Definition argmin (l : list Q) : option nat :=
  match l with
  | [] => None
  | x :: rest => Some (argmin_from 0 x 1 rest)
  end.

End Numpy.

(** ** realistic_power_analysis.py *)

Module RealisticPowerAnalysis.

(** [__init__] *)
Definition irradiance_conditions : list (string * Q) :=
  [ ("space_solar_constant", 1361);
    ("am1_5_direct", 900);
    ("peak_sun_conditions", 1000);
    ("excellent_clear_day", 800);
    ("typical_clear_day", 700);
    ("partly_cloudy", 500);
    ("heavy_overcast", 200) ]%string.

Definition efficiency_factors : list (string * Q) :=
  [ ("optical_transmission", 0.90);
    ("coating_losses", 0.95);
    ("surface_errors", 0.85);
    ("tracking_accuracy", 0.95);
    ("dust_soiling", 0.90) ]%string.

Definition total_efficiency : Q := Numpy.prod (map snd efficiency_factors).

Record PowerScenario : Type := mkScenario {
  irradiance_W_m2 : Q;
  theoretical_power_W : Q;
  realistic_power_W : Q;
  efficiency_loss_W : Q
}.

(** [analyze_power_scenarios] *)
Definition analyze_power_scenarios (lens_diameter_m : Q)
  : list (string * PowerScenario) :=
  let lens_area := Numpy.pi * (lens_diameter_m / 2) ^ 2 in
  map (fun entry =>
         let condition := fst entry in
         let irradiance := snd entry in
         let theoretical_power := irradiance * lens_area in
         let realistic_power := theoretical_power * total_efficiency in
         (condition,
          mkScenario irradiance theoretical_power realistic_power
                     (theoretical_power - realistic_power)))
      irradiance_conditions.

(** Subscripting a dictionary: [None] is the [KeyError]. *)
Definition getitem {V : Type} (d : list (string * V)) (key : string)
  : option V :=
  match find (fun entry => String.eqb key (fst entry)) d with
  | Some entry => Some (snd entry)
  | None => None
  end.

(** The start of [RealisticFresnelConcentrator.__init__]: the irradiance is
    looked up first, then the prescription is built. *)
Inductive construction : Type :=
| KeyError (key : string)
| Built (irradiance : Q) (lens : Optic.t).

Definition new_concentrator (irradiance_condition : string)
           (focal_length : Q) : construction :=
  match getitem irradiance_conditions irradiance_condition with
  | None => KeyError irradiance_condition
  | Some irradiance =>
      Built irradiance (RealisticFresnelConcentrator.__init__ focal_length)
  end.

Record Performance : Type := mkPerformance {
  power_density_kW_m2 : Q;
  optical_density : Q;
  collected_power_W : Q;
  irradiance : Q
}.

(** [RealisticFresnelConcentrator.analyze_realistic_power_performance];
    [diameter] and [focal_length] are the attributes [self.diameter] and
    [self.focal_length] the method reads ([__init__] sets the diameter to
    [RealisticFresnelConcentrator.diameter]). *)
Definition analyze_realistic_power_performance (diameter focal_length : Q)
  : list (string * Performance) :=
  let power_scenarios := analyze_power_scenarios (diameter / 1000) in
  let lens_area_m2 := Numpy.pi * (diameter / 2000) ^ 2 in
  let divergence_angle := (diameter / 2) / focal_length in
  let beam_radius_at_400mm := 400.0 * divergence_angle in
  let beam_area_at_400mm := Numpy.pi * (beam_radius_at_400mm / 1000) ^ 2 in
  map (fun entry =>
         let condition := fst entry in
         let power_data := snd entry in
         let realistic_power := realistic_power_W power_data in
         let power_density := realistic_power / beam_area_at_400mm / 1000 in
         let optical_density := lens_area_m2 / beam_area_at_400mm in
         (condition,
          mkPerformance power_density optical_density realistic_power
                        (irradiance_W_m2 power_data)))
      power_scenarios.

(** The figure the script prints beside each power density: what it would
    be "with my 1361 W/m2". *)
Definition with_space_constant (p : Performance) : Q :=
  power_density_kW_m2 p * 1361 / irradiance p.

End RealisticPowerAnalysis.

(** ** Power density against distance *)

Module PowerDensity.

Record Sample : Type := mkSample {
  power_density_kW_m2 : Q;
  optical_density : Q;
  beam_radius_mm : Q
}.

(** The loop body of [analyze_power_density_vs_distance], the same in
    optimized_1.2m_fresnel.py and realistic_fresnel_solar_concentrator.py. *)
Definition sample_at (total_power lens_area_m2 diameter focal_length
                      dist_mm : Q) : Sample :=
  let divergence_angle := (diameter / 2) / focal_length in
  let beam_radius_mm := dist_mm * divergence_angle in
  let beam_area_mm2 := Numpy.pi * beam_radius_mm ^ 2 in
  let beam_area_m2 := beam_area_mm2 / 1e6 in
  let power_density :=
    if negb (Qle_bool beam_area_m2 0) then total_power / beam_area_m2
    else 0 in
  let optical_density :=
    if negb (Qle_bool beam_area_m2 0) then lens_area_m2 / beam_area_m2
    else 0 in
  mkSample (power_density / 1000) optical_density beam_radius_mm.

Record DistanceAnalysis : Type := mkAnalysis {
  distances_m : list Q;
  distances_mm : list Q;
  samples : list Sample;
  total_power_W : Q;
  lens_area_m2 : Q
}.

(** [OptimizedFresnelConcentrator.analyze_power_density_vs_distance] *)
Definition optimized_analysis (focal_length : Q) : DistanceAnalysis :=
  let diameter := OptimizedFresnelConcentrator.diameter in
  let am1_5_direct := 900 in
  let efficiency_factor := 0.621 in
  let lens_area_m2 := Numpy.pi * (diameter / 2000) ^ 2 in
  let theoretical_power := am1_5_direct * lens_area_m2 in
  let total_power := theoretical_power * efficiency_factor in
  let distances_m := Numpy.linspace 0.1 1.0 100 in
  let distances_mm := map (fun d => d * 1000) distances_m in
  mkAnalysis distances_m distances_mm
             (map (sample_at total_power lens_area_m2 diameter focal_length)
                  distances_mm)
             total_power lens_area_m2.


(** The start of [analyze_optimized_concentrator]: the sample nearest to
    0.4 m and the status derived from it. *)
Definition target_idx (a : DistanceAnalysis) : option nat :=
  Numpy.argmin (map (fun d => Qabs (d - 0.4)) (distances_m a)).

Definition at_0_4m (a : DistanceAnalysis) : option Sample :=
  match target_idx a with
  | Some i => nth_error (samples a) i
  | None => None
  end.

Definition status (optical_at_0_4m : Q) : string :=
  if negb (Qle_bool 1.0 (Qabs (optical_at_0_4m - 10.0))) then "EXCELLENT"
  else "NEEDS_ADJUSTMENT".

End PowerDensity.

(** ** fresnel_concentrator_1.5m.py, concentration *)

Module Concentration.

(** [LargeFresnelConcentrator.get_concentration_ratio]: concentration, actual
    spot and diffraction spot. *)
Definition get_concentration_ratio (diameter focal_length : Q) : Q * Q * Q :=
  let wavelength := 0.550e-3 in
  let f_number := focal_length / diameter in
  let diffraction_spot := 2.44 * wavelength * f_number in
  let actual_spot := 3 * diffraction_spot in
  let lens_area := Numpy.pi * (diameter / 2) ^ 2 in
  let spot_area := Numpy.pi * (actual_spot / 2) ^ 2 in
  let concentration := lens_area / spot_area in
  (concentration, actual_spot, diffraction_spot).

(** The body of the loop over f-numbers in [analyze_fresnel_concentrator]. *)
Definition plotted_concentration (diameter fn : Q) : Q :=
  let wavelength := 0.550e-3 in
  let diff_spot := 2.44 * wavelength * fn in
  let actual_spot := 3 * diff_spot in
  let lens_area := Numpy.pi * (diameter / 2) ^ 2 in
  let spot_area := Numpy.pi * (actual_spot / 2) ^ 2 in
  lens_area / spot_area.

End Concentration.

(* ===================================================================== *)
(** * Part II: theorems                                                    *)
(* ===================================================================== *)

(** C1: for every focal length the 1.5m script returns [2*f*(n-1)], the
    other two scripts return [f*(n-1)] with [n = 1.517], and so the 1.5m
    radius is exactly twice the radius of the majority convention. *)
Theorem fresnel_radius_conventions :
  forall f : Q,
    LargeFresnelConcentrator._calculate_fresnel_radius f == 2 * f * (1.517 - 1)
    /\ OptimizedFresnelConcentrator._calculate_fresnel_radius f == f * (1.517 - 1)
    /\ RealisticFresnelConcentrator.fresnel_radius f == f * (1.517 - 1)
    /\ LargeFresnelConcentrator._calculate_fresnel_radius f
       == 2 * OptimizedFresnelConcentrator._calculate_fresnel_radius f
    /\ LargeFresnelConcentrator._calculate_fresnel_radius f
       == 2 * RealisticFresnelConcentrator.fresnel_radius f.
Proof.
  intro f.
  unfold LargeFresnelConcentrator._calculate_fresnel_radius,
    OptimizedFresnelConcentrator._calculate_fresnel_radius,
    RealisticFresnelConcentrator.fresnel_radius.
  cbv zeta.
  repeat split; try reflexivity; ring.
Qed.

(** ** Conversion to and from the AutoLens format *)

Section ExportFacts.
Import Optic AutoLens Conversion.

Lemma optiland_to_autolens_surfaces view probe L :
  d_surfaces (optiland_to_autolens view probe L)
  = map (export_surface view) (enumerate (surfaces L)).
Proof.
  unfold optiland_to_autolens. cbn. apply map_ext. now intros [i s].
Qed.

(** When no attribute can be read, every entry is written flat, in air and
    with conic 0, whatever the surface is. *)
Lemma export_without_attributes probe L :
  Forall (fun sd => sd_radius sd = JInfinity
                    /\ sd_thickness sd = JInfinity
                    /\ sd_material sd = Some "air"%string
                    /\ sd_conic sd = Some 0.0)
         (d_surfaces (optiland_to_autolens bare_view probe L)).
Proof.
  rewrite optiland_to_autolens_surfaces. apply Forall_forall.
  intros sd Hin. apply in_map_iff in Hin. destruct Hin as (entry & <- & _).
  repeat split.
Qed.

End ExportFacts.

Section ImportFacts.
Import Optic AutoLens Conversion.

Variable accepts : argument_check.


(** One pass of the surface loop, when [add_surface] goes through. *)
Lemma add_surface_data_result lens sd lens' :
  add_surface_data accepts lens sd = Some lens' ->
  lens' = with_surfaces
            (insert_at (sd_index sd) (surface_of_data sd) (surfaces lens))
            lens.
Proof.
  unfold add_surface_data, add_surface_checked.
  destruct (accepts _ _ _ _ _ _); [|discriminate].
  intro H. inversion H. reflexivity.
Qed.

(** The surface loop touches the surfaces only, and marks none as stop. *)
Lemma add_surfaces_frame sds : forall lens lens',
  add_surfaces accepts sds lens = Some lens' ->
  name lens' = name lens
  /\ aperture lens' = aperture lens
  /\ field_type lens' = field_type lens
  /\ fields lens' = fields lens
  /\ wavelengths lens' = wavelengths lens
  /\ (filter is_stop (surfaces lens) = [] ->
      filter is_stop (surfaces lens') = []).
Proof.
  induction sds as [|sd rest IH]; intros lens lens' H.
  - inversion H. subst. repeat split; auto.
  - cbn [add_surfaces] in H.
    destruct (add_surface_data accepts lens sd) as [mid|] eqn:E;
      [|discriminate].
    apply add_surface_data_result in E.
    destruct (IH _ _ H) as (Hn & Ha & Ht & Hf & Hw & Hs).
    rewrite Hn, Ha, Ht, Hf, Hw. subst mid. cbn.
    repeat split. intro Hnone. apply Hs. cbn.
    unfold insert_at. rewrite filter_app. cbn.
    rewrite <- filter_app, firstn_skipn. exact Hnone.
Qed.


Lemma fold_add_field fs : forall L,
  fold_left (fun l field_y => add_field field_y l) fs L
  = mkOptic (name L) (surfaces L) (aperture L) (field_type L)
            (fields L ++ map mkField fs) (wavelengths L).
Proof.
  induction fs as [|f rest IH]; intros L.
  - cbn. rewrite app_nil_r. now destruct L.
  - cbn [fold_left]. rewrite IH. cbn. now rewrite <- app_assoc.
Qed.

(** The wavelength loop touches the wavelengths only. *)
Lemma fold_add_wavelength_frame iws : forall L,
  let L' := fold_left add_wavelength_data iws L in
  name L' = name L /\ surfaces L' = surfaces L /\ aperture L' = aperture L
  /\ field_type L' = field_type L /\ fields L' = fields L.
Proof.
  induction iws as [|[i w] rest IH]; intro L; cbn zeta.
  - repeat split.
  - cbn [fold_left]. destruct (IH (add_wavelength_data L (i, w)))
      as (Hn & Hs & Ha & Ht & Hf).
    rewrite Hn, Hs, Ha, Ht, Hf. repeat split.
Qed.

(** The wavelengths it leaves depend on the wavelengths it finds. *)
Lemma fold_add_wavelength_ext iws : forall L1 L2,
  wavelengths L1 = wavelengths L2 ->
  wavelengths (fold_left add_wavelength_data iws L1)
  = wavelengths (fold_left add_wavelength_data iws L2).
Proof.
  induction iws as [|[i w] rest IH]; intros L1 L2 H; [exact H|].
  cbn [fold_left]. apply IH. cbn. now rewrite H.
Qed.





(** The lens [autolens_to_optiland] returns, part by part. *)
Lemma autolens_to_optiland_parts d L :
  autolens_to_optiland accepts d = Some L ->
  name L = match lens_name d with
           | Some n => n
           | None => Some "AutoLens_Import"%string
           end
  /\ filter is_stop (surfaces L) = []
  /\ aperture L = Some (mkAperture (ad_type (d_aperture d))
                                   (ad_value (d_aperture d)))
  /\ field_type L = Some "angle"%string
  /\ fields L = map mkField (d_fields d)
  /\ wavelengths L
     = wavelengths (fold_left add_wavelength_data
                              (enumerate (d_wavelengths d)) empty).
Proof.
  unfold autolens_to_optiland.
  destruct (add_surfaces accepts (d_surfaces d) _) as [lens|] eqn:E;
    [|discriminate].
  intro H. inversion H as [HL]. clear H.
  destruct (add_surfaces_frame _ _ _ E) as (Hn & Ha & Ht & Hf & Hw & Hs).
  unfold finish_lens.
  destruct (fold_add_wavelength_frame
              (enumerate (d_wavelengths d))
              (fold_left (fun l field_y => add_field field_y l) (d_fields d)
                 (set_field_type "angle"
                    (set_aperture (ad_type (d_aperture d))
                                  (ad_value (d_aperture d)) lens))))
    as (Hn' & Hs' & Ha' & Ht' & Hf').
  cbv zeta. rewrite Hn', Hs', Ha', Ht', Hf'.
  rewrite fold_add_field. cbn.
  rewrite Hn, Hf.
  repeat split.
  - now destruct (lens_name d).
  - apply Hs. now destruct (lens_name d).
  - now destruct (lens_name d).
  - apply fold_add_wavelength_ext. cbn. rewrite Hw.
    now destruct (lens_name d).
Qed.


(** No surface of a lens built from a specification is marked stop. *)
Lemma autolens_to_optiland_num_stops d L :
  autolens_to_optiland accepts d = Some L -> num_stops L = 0%nat.
Proof.
  intro H. destruct (autolens_to_optiland_parts _ _ H) as (_ & Hs & _).
  unfold num_stops. now rewrite Hs.
Qed.


End ImportFacts.

Section RoundTripFacts.
Import Optic AutoLens Conversion.

Lemma filter_length_map {A : Type} (f : A -> bool) (l : list A) :
  List.length (filter f l)
  = List.length (filter (fun b : bool => b) (map f l)).
Proof.
  induction l as [|a rest IH]; [reflexivity|].
  cbn. destruct (f a); cbn; now rewrite IH.
Qed.

Lemma round_trip_unfold view probe accepts L :
  round_trip view probe accepts L
  = autolens_to_optiland accepts (optiland_to_autolens view probe L).
Proof. reflexivity. Qed.

(** A lens that comes back without a stop is not the lens that went in,
    when that one has a stop. *)
Lemma stop_lost_not_lossless original back :
  num_stops original <> 0%nat -> num_stops back = 0%nat ->
  ~ lossless original back.
Proof.
  intros Hstop Hnone (_ & Hmark & _). apply Hstop.
  unfold num_stops in *.
  rewrite filter_length_map in Hnone |- *. now rewrite <- Hmark.
Qed.

(** With a library that refuses a surface without a material, the round
    trip of the integration script's lens raises at its object surface,
    whether the attributes can all be read or not at all. *)
Lemma round_trip_raises_under_strict_check probe :
  round_trip data_model_view probe strict_check create_realistic_fresnel_lens
  = None
  /\ round_trip bare_view probe strict_check create_realistic_fresnel_lens
     = None.
Proof. split; reflexivity. Qed.

(** From a list of three wavelengths the one at position 1 is made the
    primary one. *)
Lemma import_primary_of_three accepts d back w0 w1 w2 :
  autolens_to_optiland accepts d = Some back ->
  d_wavelengths d = [w0; w1; w2] ->
  map is_primary (wavelengths back) = [false; true; false].
Proof.
  intros H Hd.
  apply autolens_to_optiland_parts in H.
  destruct H as (_ & _ & _ & _ & _ & Hw).
  rewrite Hw, Hd. reflexivity.
Qed.

(** So the mark of a lens whose first wavelength is primary has moved when
    the lens comes back. *)
Lemma round_trip_moves_primary view probe accepts f back :
  round_trip view probe accepts (OptimizedFresnelConcentrator.__init__ f)
  = Some back ->
  map is_primary (wavelengths (OptimizedFresnelConcentrator.__init__ f))
  = [true; false; false]
  /\ map is_primary (wavelengths back) = [false; true; false].
Proof.
  intro H. split; [reflexivity|].
  rewrite round_trip_unfold in H.
  assert (Hd : d_wavelengths
                 (optiland_to_autolens
                    view probe (OptimizedFresnelConcentrator.__init__ f))
               = [0.486; 0.587; 0.656]) by reflexivity.
  exact (import_primary_of_three _ _ _ _ _ _ H Hd).
Qed.

End RoundTripFacts.

(** C3 (at the lens of [create_realistic_fresnel_lens]): surface 1 of the
    lens is its stop; whatever the exporter can read on the surfaces,
    whatever the aperture query returns and whatever [add_surface]
    accepts, the round trip either raises or returns a lens none of whose
    surfaces is a stop, which is not the lens that went in. *)
Theorem round_trip_loses_stop :
  forall (view : AutoLens.SurfaceView) (probe : Optic.t -> option Q)
         (accepts : Optic.argument_check),
    map Optic.is_stop (Optic.surfaces AutoLens.create_realistic_fresnel_lens)
    = [false; true; false; false]
    /\ match AutoLens.round_trip view probe accepts
               AutoLens.create_realistic_fresnel_lens with
       | None => True
       | Some back =>
           Forall (fun s => Optic.is_stop s = false) (Optic.surfaces back)
           /\ Optic.num_stops back = 0%nat
           /\ ~ AutoLens.lossless AutoLens.create_realistic_fresnel_lens back
       end.
Proof.
  intros view probe accepts. split; [reflexivity|].
  destruct (AutoLens.round_trip view probe accepts
              AutoLens.create_realistic_fresnel_lens) as [back|] eqn:E;
    [|exact I].
  pose proof (autolens_to_optiland_num_stops _ _ _ E) as Hnone.
  split; [|split; [exact Hnone|]].
  - unfold Optic.num_stops in Hnone. apply Forall_forall. intros s Hin.
    destruct (Optic.is_stop s) eqn:Es; [|reflexivity].
    assert (Hf : In s (filter Optic.is_stop (Optic.surfaces back)))
      by (apply filter_In; split; assumption).
    destruct (filter Optic.is_stop (Optic.surfaces back));
      [contradiction|discriminate].
  - apply stop_lost_not_lossless; [discriminate|exact Hnone].
Qed.

(** ** Stop and primary-wavelength invariants of the builders *)

Section BuilderInvariants.
Import Optic AutoLens Conversion.







End BuilderInvariants.




(** ** The placeholder of [geolens_to_dict] *)

(** C10: [geolens_to_dict] returns the fixed placeholder for every GeoLens
    object, whatever statements follow its first [return], and so
    [run_autolens_optimization] returns either nothing or that placeholder,
    whatever the load and the analysis of AutoLens produce. *)
Theorem geolens_to_dict_is_placeholder :
  forall (GeoLens : Type) (geo_lens : GeoLens)
         (AUTOLENS_AVAILABLE : bool)
         (load : AutoLens.Data -> option GeoLens)
         (analysis : GeoLens -> option GeoLens)
         (initial_spec : AutoLens.Data),
    AutoLens.geolens_to_dict geo_lens = Some AutoLens.placeholder
    /\ (forall rest : list (Python.stmt AutoLens.Data),
          Python.run_body
            (firstn 2 (AutoLens.geolens_to_dict_body geo_lens) ++ rest)
          = AutoLens.geolens_to_dict geo_lens)
    /\ (AutoLens.run_autolens_optimization AUTOLENS_AVAILABLE load analysis
                                           initial_spec = None
        \/ AutoLens.run_autolens_optimization AUTOLENS_AVAILABLE load analysis
                                              initial_spec
           = Some AutoLens.placeholder).
Proof.
  intros GeoLens geo_lens avail load analysis spec.
  split; [reflexivity|]. split; [reflexivity|].
  unfold AutoLens.run_autolens_optimization.
  destruct avail; cbn; [|now left].
  destruct (load spec) as [lens|]; [|now left].
  destruct (analysis lens) as [lens'|]; [|now left].
  now right.
Qed.

(** ** Focal length of the integration script's lens *)

Lemma scenario_focal_length :
  exists efl,
    Paraxial.effective_focal_length Paraxial.scenario_plano_convex = Some efl
    /\ efl == 653.245 / (1.517 - 1)
    /\ Paraxial.within_percent 1 1265.0 efl.
Proof.
  exists (653245 # 517). split; [vm_compute; reflexivity|].
  split; [reflexivity|].
  split; vm_compute; discriminate.
Qed.

(** C2 (at the code's prescription): the lens of
    [create_realistic_fresnel_lens] has a back surface of radius -653.245 mm,
    not a flat one, and its paraxial focal length lies between 633 and
    634 mm, outside one percent of the design value 1265.0 mm. *)
Theorem create_realistic_fresnel_lens_focal_length :
  exists efl,
    Paraxial.effective_focal_length AutoLens.create_realistic_fresnel_lens
    = Some efl
    /\ 633 < efl < 634
    /\ ~ Paraxial.within_percent 1 AutoLens.design_focal_length efl.
Proof.
  exists (129469587709585 # 204505484722).
  split; [vm_compute; reflexivity|].
  split; [split; reflexivity|].
  intros [Hlow _]. vm_compute in Hlow. apply Hlow. reflexivity.
Qed.

(** ** Normalised field coordinates of the operands *)

Section FieldNormalisation.
Import Optic Optimization.



















End FieldNormalisation.



(** ** The missing method of the solar concentrator script *)

Section SolarFacts.
Import SolarScript.

Lemma provided_false names a : ~ In a names -> provided names a = false.
Proof.
  intro Hn. unfold provided, has.
  destruct (existsb (String.eqb a) names) eqn:E; [|reflexivity].
  apply existsb_exists in E. destruct E as (b & Hin & Heq).
  apply String.eqb_eq in Heq. subst b. contradiction.
Qed.

(** The class body has three [def]s, none of them the concentration
    method. *)
Lemma class_defines_no_concentration_method Optic_attributes :
  map fst (methods (RealisticSolarConcentrator Optic_attributes))
  = [ "__init__"; "_calculate_fresnel_radius";
      "analyze_power_density_vs_distance" ]%string
  /\ find_method (RealisticSolarConcentrator Optic_attributes)
                 "get_realistic_concentration" = None.
Proof. split; reflexivity. Qed.

Lemma provided_true names a : In a names -> provided names a = true.
Proof.
  intro Hin. unfold provided, has. apply existsb_exists.
  exists a. split; [exact Hin|apply String.eqb_refl].
Qed.

End SolarFacts.

(** C9: the class defines no [get_realistic_concentration] (the statements
    that build the concentration dictionary follow the [return] of
    [analyze_power_density_vs_distance] and never run), so when the base
    class provides the builder methods that [__init__] uses but not that
    name, [main] ends in [AttributeError] at the first call: one lens has
    been built, the method has not run, and neither the detailed analysis
    nor the report is reached. *)
Theorem main_raises_attribute_error :
  forall Optic_attributes : list string,
    incl SolarScript.init_uses Optic_attributes ->
    ~ In "get_realistic_concentration"%string Optic_attributes ->
    ~ In "get_realistic_concentration"%string
         (map fst (SolarScript.methods
                     (SolarScript.RealisticSolarConcentrator Optic_attributes)))
    /\ Python.run_body SolarScript.analyze_power_density_vs_distance_body
       = Some SolarScript.DistanceAnalysis
    /\ exists trace,
         SolarScript.main Optic_attributes []
         = (trace, inl (SolarScript.AttributeError
                          "RealisticSolarConcentrator"
                          "get_realistic_concentration"))
         /\ filter (fun e => match e with
                             | SolarScript.NewLens _ => true
                             | _ => false
                             end) trace
            = [SolarScript.NewLens 5.0]
         /\ ~ In (SolarScript.MethodCall "get_realistic_concentration") trace
         /\ ~ In SolarScript.DetailedAnalysis trace
         /\ ~ In SolarScript.ReportWritten trace.
Proof.
  intros Optic_attributes Huses Hbase.
  split.
  { cbn. intros [H|[H|[H|[]]]]; discriminate H. }
  split; [reflexivity|].
  assert (Hmissing : SolarScript.provided Optic_attributes
                       "get_realistic_concentration" = false)
    by (apply provided_false; exact Hbase).
  assert (Hadd : SolarScript.provided Optic_attributes "add_surface" = true)
    by (apply provided_true, Huses; cbn; tauto).
  assert (Hap : SolarScript.provided Optic_attributes "set_aperture" = true)
    by (apply provided_true, Huses; cbn; tauto).
  assert (Hft : SolarScript.provided Optic_attributes "set_field_type" = true)
    by (apply provided_true, Huses; cbn; tauto).
  assert (Hfi : SolarScript.provided Optic_attributes "add_field" = true)
    by (apply provided_true, Huses; cbn; tauto).
  assert (Hwl : SolarScript.provided Optic_attributes "add_wavelength" = true)
    by (apply provided_true, Huses; cbn; tauto).
  eexists. split.
  { repeat (cbv -[SolarScript.provided];
            rewrite ?Hadd, ?Hap, ?Hft, ?Hfi, ?Hwl, ?Hmissing).
    reflexivity. }
  split; [reflexivity|].
  repeat split; cbn; intro H;
    repeat (destruct H as [H|H]; [discriminate H|]); exact H.
Qed.

Lemma main_raises_attribute_error_witness :
  incl SolarScript.init_uses SolarScript.Optic_attributes_in_use
  /\ ~ In "get_realistic_concentration"%string
          SolarScript.Optic_attributes_in_use
  /\ exists trace,
       SolarScript.main SolarScript.Optic_attributes_in_use []
       = (trace, inl (SolarScript.AttributeError
                        "RealisticSolarConcentrator"
                        "get_realistic_concentration")).
Proof.
  assert (Huses : incl SolarScript.init_uses
                       SolarScript.Optic_attributes_in_use).
  { intros a Ha. cbn in Ha. cbn.
    repeat (destruct Ha as [<-|Ha]; [tauto|]). contradiction. }
  assert (H : ~ In "get_realistic_concentration"%string
                   SolarScript.Optic_attributes_in_use).
  { cbn. intro H.
    repeat (destruct H as [H|H]; [discriminate H|]). exact H. }
  split; [exact Huses|]. split; [exact H|].
  destruct (main_raises_attribute_error _ Huses H)
    as (_ & _ & trace & Hrun & _).
  exists trace. exact Hrun.
Defined.

(** ** Bounds of the optimiser's solution *)

Section OptimizerFacts.
Import Optic Optimization Optimizer.

Variable merit : Optic.t -> Q.
Variable seed : nat -> list Q.
Variable trial : nat -> nat -> list (list Q) -> list Q.
Variable tolerance : Q.
Variable extra_members : nat.

Lemma clamp_in_bounds lo hi x : lo <= hi -> lo <= clamp lo hi x <= hi.
Proof.
  intro Hle. unfold clamp. split.
  - apply Q.le_max_l.
  - apply Q.max_lub; [exact Hle|apply Q.le_min_l].
Qed.

Lemma into_bounds_in_bounds vars : forall x,
  ordered_bounds vars -> Forall2 in_bounds vars (into_bounds vars x).
Proof.
  induction vars as [|v rest IH]; intros x Hord; cbn; [constructor|].
  inversion Hord as [|? ? Hv Hrest]; subst.
  constructor; [now apply clamp_in_bounds|now apply IH].
Qed.

Lemma not_malformed_ordered problem :
  malformed problem = false -> ordered_bounds (variables problem).
Proof.
  unfold malformed, ordered_bounds. intro H.
  destruct (variables problem) as [|v vars]; [discriminate|].
  destruct (operands problem) as [|o ops]; [discriminate|].
  apply Forall_forall. intros w Hin.
  destruct (Qlt_le_dec (max_val w) (min_val w)) as [Hlt|Hle]; [|exact Hle].
  exfalso.
  assert (Hex : existsb (fun v0 => Qle_bool (max_val v0) (min_val v0))
                        (v :: vars) = true).
  { apply existsb_exists. exists w. split; [exact Hin|].
    apply Qle_bool_iff. now apply Qlt_le_weak. }
  rewrite H in Hex. discriminate.
Qed.

Lemma select_in_bounds L vars target cand :
  Forall2 in_bounds vars target -> Forall2 in_bounds vars cand ->
  Forall2 in_bounds vars (select merit L vars target cand).
Proof.
  intros Ht Hc. unfold select.
  now destruct (Qle_bool _ _).
Qed.

Lemma next_generation_in_bounds L vars g pop :
  ordered_bounds vars ->
  population_in_bounds vars pop ->
  population_in_bounds vars (next_generation merit trial L vars g pop).
Proof.
  intros Hord Hpop. unfold next_generation, population_in_bounds.
  apply Forall_forall. intros x Hin.
  apply in_map_iff in Hin. destruct Hin as ([i target] & <- & Hin).
  apply in_combine_r in Hin. cbn.
  apply select_in_bounds.
  - unfold population_in_bounds in Hpop.
    rewrite Forall_forall in Hpop. now apply Hpop.
  - now apply into_bounds_in_bounds.
Qed.

Lemma evolve_in_bounds L vars budget : forall g pop,
  ordered_bounds vars ->
  population_in_bounds vars pop ->
  population_in_bounds vars
    (fst (fst (evolve merit trial tolerance L vars budget g pop)))
  /\ snd (fst (evolve merit trial tolerance L vars budget g pop)) <> FAILED.
Proof.
  induction budget as [|k IH]; intros g pop Hord Hpop; cbn.
  - split; [exact Hpop|discriminate].
  - destruct (converged _ _ _); cbn.
    + split; [now apply next_generation_in_bounds|discriminate].
    + apply IH; [exact Hord|now apply next_generation_in_bounds].
Qed.

Lemma evolve_population_size L vars budget : forall g pop,
  List.length
    (fst (fst (evolve merit trial tolerance L vars budget g pop)))
  = List.length pop.
Proof.
  assert (Hnext : forall g pop,
             List.length (next_generation merit trial L vars g pop)
             = List.length pop).
  { intros g pop. unfold next_generation.
    rewrite length_map, length_combine, length_seq. apply Nat.min_id. }
  induction budget as [|k IH]; intros g pop; cbn; [reflexivity|].
  destruct (converged _ _ _); cbn; [apply Hnext|].
  now rewrite IH, Hnext.
Qed.

Lemma best_of_in_bounds L vars pop : forall b,
  Forall2 in_bounds vars b ->
  population_in_bounds vars pop ->
  Forall2 in_bounds vars (best_of merit L vars b pop).
Proof.
  induction pop as [|x rest IH]; intros b Hb Hpop; cbn; [exact Hb|].
  inversion Hpop as [|? ? Hx Hrest]; subst.
  apply IH; [|exact Hrest].
  now destruct (Qle_bool _ _).
Qed.

Lemma best_in_bounds L vars pop :
  pop <> [] ->
  population_in_bounds vars pop ->
  Forall2 in_bounds vars (best merit L vars pop).
Proof.
  intros Hne Hpop. unfold best.
  destruct pop as [|x rest]; [now contradiction Hne|].
  inversion Hpop; subst. now apply best_of_in_bounds.
Qed.

(** The solution of a run that is not malformed lies in the box, and it is
    what the returned sequence holds. *)
Lemma optimize_solution_in_bounds L problem max_iterations :
  malformed problem = false ->
  let run := optimize merit seed trial tolerance extra_members L problem
                      max_iterations in
  state (snd run) <> FAILED
  /\ fst run = apply_vector (variables problem) (solution (snd run)) L
  /\ Forall2 in_bounds (variables problem) (solution (snd run)).
Proof.
  intros Hwf run. subst run. unfold optimize. rewrite Hwf.
  pose proof (not_malformed_ordered _ Hwf) as Hord.
  set (pop0 := map _ (seq 0 (S extra_members))).
  assert (Hpop0 : population_in_bounds (variables problem) pop0).
  { unfold population_in_bounds, pop0. apply Forall_forall. intros x Hin.
    apply in_map_iff in Hin. destruct Hin as (i & <- & _).
    now apply into_bounds_in_bounds. }
  pose proof (evolve_in_bounds L (variables problem) max_iterations 0 pop0
                               Hord Hpop0) as [Hinv Hst].
  pose proof (evolve_population_size L (variables problem) max_iterations 0
                                     pop0) as Hlen.
  destruct (evolve merit trial tolerance L (variables problem)
                   max_iterations 0 pop0) as [[pop st] g].
  cbn in *. split; [exact Hst|]. split; [reflexivity|].
  apply best_in_bounds; [|exact Hinv].
  intro Hnil. rewrite Hnil in Hlen. unfold pop0 in Hlen.
  rewrite length_map, length_seq in Hlen. discriminate.
Qed.

(** Malformed input fails before any evaluation and leaves the lens as it
    was. *)
Lemma optimize_malformed L problem max_iterations :
  malformed problem = true ->
  optimize merit seed trial tolerance extra_members L problem max_iterations
  = (L, mkResult false 0 0 (merit L) FAILED []).
Proof.
  intro Hbad. unfold optimize. now rewrite Hbad.
Qed.

(** With no iteration allowed the run stops at once at the iteration limit,
    having evaluated the seeded population only. *)
Lemma optimize_no_iterations L problem :
  malformed problem = false ->
  let r := snd (optimize merit seed trial tolerance extra_members L problem 0) in
  state r = ITERATION_LIMIT /\ iterations r = 0%nat
  /\ evaluations r = S extra_members.
Proof.
  intros Hwf r. subst r. unfold optimize. rewrite Hwf. cbn.
  repeat split. lia.
Qed.

End OptimizerFacts.

Section ReadBack.
Import Optic Optimization Optimizer.

Lemma update_nth_length {A : Type} (f : A -> A) l : forall i,
  List.length (update_nth i f l) = List.length l.
Proof.
  induction l as [|a rest IH]; intros [|j]; cbn; auto.
Qed.

Lemma nth_error_update_same {A : Type} (f : A -> A) l : forall i a,
  nth_error l i = Some a -> nth_error (update_nth i f l) i = Some (f a).
Proof.
  induction l as [|b rest IH]; intros [|j] a H; cbn in *; try discriminate.
  - now inversion H.
  - now apply IH.
Qed.

Lemma nth_error_update_other {A : Type} (f : A -> A) l : forall i j,
  i <> j -> nth_error (update_nth i f l) j = nth_error l j.
Proof.
  induction l as [|b rest IH]; intros [|i] [|j] Hne; cbn; try reflexivity.
  - now contradiction Hne.
  - apply IH. congruence.
Qed.

Lemma write_variable_length L var v :
  List.length (surfaces (write_variable L var v)) = List.length (surfaces L).
Proof. cbn. apply update_nth_length. Qed.

Lemma read_write_same L var v :
  (var_surface var < List.length (surfaces L))%nat ->
  attribute var = "radius"%string ->
  read_variable (write_variable L var v) var = Some v.
Proof.
  intros Hlt Hattr. unfold read_variable, write_variable. cbn.
  destruct (nth_error (surfaces L) (var_surface var)) as [s|] eqn:E.
  - rewrite (nth_error_update_same _ _ _ _ E).
    unfold get_attribute, set_attribute. rewrite Hattr. reflexivity.
  - apply nth_error_None in E. lia.
Qed.

Lemma read_write_other L var other v :
  var_surface other <> var_surface var ->
  read_variable (write_variable L other v) var = read_variable L var.
Proof.
  intro Hne. unfold read_variable, write_variable. cbn.
  now rewrite nth_error_update_other.
Qed.

Lemma apply_vector_length vars : forall x L,
  List.length (surfaces (apply_vector vars x L)) = List.length (surfaces L).
Proof.
  unfold apply_vector.
  induction vars as [|v rest IH]; intros [|a x] L; cbn; try reflexivity.
  rewrite IH. apply write_variable_length.
Qed.

Lemma read_apply_other vars var : forall x L,
  ~ In (var_surface var) (map var_surface vars) ->
  read_variable (apply_vector vars x L) var = read_variable L var.
Proof.
  unfold apply_vector.
  induction vars as [|v rest IH]; intros [|a x] L Hnin; cbn; try reflexivity.
  cbn in Hnin. rewrite IH by tauto.
  apply read_write_other. tauto.
Qed.

(** Reading the variables back from the sequence gives the vector that was
    written. *)
Lemma read_apply_vector vars : forall x L,
  radii_of_distinct_surfaces L vars ->
  List.length x = List.length vars ->
  Forall2 (fun var v => read_variable (apply_vector vars x L) var = Some v)
          vars x.
Proof.
  induction vars as [|v rest IH]; intros [|a x] L [Hnd Hall] Hlen;
    cbn in Hlen; try discriminate; [constructor|].
  inversion Hnd as [|? ? Hnin Hnd']; subst.
  inversion Hall as [|? ? [Hlt Hattr] Hall']; subst.
  constructor.
  - change (apply_vector (v :: rest) (a :: x) L)
      with (apply_vector rest x (write_variable L v a)).
    rewrite read_apply_other by exact Hnin.
    now apply read_write_same.
  - change (apply_vector (v :: rest) (a :: x) L)
      with (apply_vector rest x (write_variable L v a)).
    apply IH; [|lia].
    split; [exact Hnd'|].
    eapply Forall_impl; [|exact Hall'].
    intros w [Hw Hwa]. split; [|exact Hwa].
    now rewrite write_variable_length.
Qed.

Lemma in_bounds_read_back vars : forall x (P : OptVariable -> Q -> Prop),
  Forall2 in_bounds vars x ->
  Forall2 P vars x ->
  Forall (fun var => exists v, P var v /\ in_bounds var v) vars.
Proof.
  induction vars as [|v rest IH]; intros x P Hb HP; [constructor|].
  inversion Hb; subst. inversion HP; subst.
  constructor; [eexists; eauto|eapply IH; eauto].
Qed.

End ReadBack.

Section OptimizerReadBack.
Import Optic Optimization Optimizer.

Variable merit : Optic.t -> Q.
Variable seed : nat -> list Q.
Variable trial : nat -> nat -> list (list Q) -> list Q.
Variable tolerance : Q.
Variable extra_members : nat.

(** After a run on well-formed input over radii of distinct surfaces, each
    radius read back from the returned lens lies within its bounds. *)
Lemma optimize_read_back L problem max_iterations :
  malformed problem = false ->
  radii_of_distinct_surfaces L (variables problem) ->
  Forall (fun var => exists v,
              read_variable
                (fst (optimize merit seed trial tolerance extra_members L
                               problem max_iterations)) var = Some v
              /\ in_bounds var v)
         (variables problem).
Proof.
  intros Hwf Hdist.
  destruct (optimize_solution_in_bounds merit seed trial tolerance
              extra_members L problem max_iterations Hwf) as (_ & Happ & Hb).
  cbv zeta in Happ, Hb.
  eapply in_bounds_read_back; [exact Hb|].
  rewrite Happ. apply read_apply_vector; [exact Hdist|].
  symmetry. eapply Forall2_length. exact Hb.
Qed.

Ltac distinct_radii :=
  split;
  [ cbn; repeat (apply NoDup_cons; [cbn; intuition discriminate|]);
    apply NoDup_nil
  | cbn; repeat (apply Forall_cons; [split; [cbn; lia|reflexivity]|]);
    apply Forall_nil ].

(** The ten fisheye radii after any run of the optimiser lie between -100
    and 100. *)
Lemma fisheye_radii_within_bounds max_iterations :
  let lens := WideAngleFisheyeLens.__init__ in
  let problem := WideAngleFisheyeLens.create_optimization_problem lens in
  List.length (variables problem) = 10%nat
  /\ Forall (fun var => exists r,
                 read_variable
                   (fst (optimize merit seed trial tolerance extra_members
                                  lens problem max_iterations)) var = Some r
                 /\ -100 <= r <= 100)
            (variables problem).
Proof.
  intros lens problem. split; [reflexivity|].
  assert (Hwf : malformed problem = false) by reflexivity.
  assert (Hdist : radii_of_distinct_surfaces lens (variables problem))
    by distinct_radii.
  pose proof (optimize_read_back lens problem max_iterations Hwf Hdist) as H.
  rewrite Forall_forall in H. apply Forall_forall. intros var Hin.
  destruct (H var Hin) as (r & Hr & Hb). exists r. split; [exact Hr|].
  unfold in_bounds in Hb.
  cbn in Hin.
  repeat (destruct Hin as [<-|Hin]; [exact Hb|]). contradiction.
Qed.

(** The six endoscope radii after any run lie within the interval declared
    for their surface. *)
Lemma endoscope_radii_within_bounds max_iterations :
  let lens := SimpleEndoscope.__init__ in
  let problem := SimpleEndoscope.optimize_endoscope_problem lens in
  map (fun var => (var_surface var, min_val var, max_val var))
      (variables problem)
  = [ (1%nat, 5.0, 15.0); (2%nat, -20.0, -5.0); (4%nat, -10.0, -2.0);
      (5%nat, 5.0, 20.0); (6%nat, 2.0, 10.0); (7%nat, -15.0, -3.0) ]
  /\ Forall (fun var => exists r,
                 read_variable
                   (fst (optimize merit seed trial tolerance extra_members
                                  lens problem max_iterations)) var = Some r
                 /\ min_val var <= r <= max_val var)
            (variables problem).
Proof.
  intros lens problem. split; [reflexivity|].
  assert (Hwf : malformed problem = false) by reflexivity.
  assert (Hdist : radii_of_distinct_surfaces lens (variables problem))
    by distinct_radii.
  exact (optimize_read_back lens problem max_iterations Hwf Hdist).
Qed.

End OptimizerReadBack.

(** C4: a run of the optimiser on well-formed input does not fail, and the
    solution it applies to the lens has every value within the bounds of its
    variable, inclusive; when the variables are radii of distinct surfaces of
    the lens, the radii read back from the returned lens lie within their
    bounds. *)
Theorem optimizer_solution_within_bounds :
  forall (merit : Optic.t -> Q) (seed : nat -> list Q)
         (trial : nat -> nat -> list (list Q) -> list Q) (tolerance : Q)
         (extra_members : nat) (L : Optic.t)
         (problem : Optimization.OptimizationProblem) (max_iterations : nat),
    Optimizer.malformed problem = false ->
    let run := Optimizer.optimize merit seed trial tolerance extra_members
                                  L problem max_iterations in
    Optimizer.state (snd run) <> Optimizer.FAILED
    /\ fst run = Optimizer.apply_vector (Optimization.variables problem)
                                        (Optimizer.solution (snd run)) L
    /\ Forall2 Optimizer.in_bounds (Optimization.variables problem)
               (Optimizer.solution (snd run))
    /\ (Optimizer.radii_of_distinct_surfaces
          L (Optimization.variables problem) ->
        Forall (fun var => exists v,
                    Optimizer.read_variable (fst run) var = Some v
                    /\ Optimizer.in_bounds var v)
               (Optimization.variables problem)).
Proof.
  intros merit seed trial tolerance extra L problem max_iterations Hwf run.
  destruct (optimize_solution_in_bounds merit seed trial tolerance extra
              L problem max_iterations Hwf) as (Hst & Happ & Hb).
  fold run in Hst, Happ, Hb.
  split; [exact Hst|]. split; [exact Happ|]. split; [exact Hb|].
  intro Hdist. now apply optimize_read_back.
Qed.

Lemma optimizer_solution_within_bounds_witness :
  Optimizer.malformed
    (WideAngleFisheyeLens.create_optimization_problem
       WideAngleFisheyeLens.__init__) = false
  /\ Forall2 Optimizer.in_bounds
             (Optimization.variables
                (WideAngleFisheyeLens.create_optimization_problem
                   WideAngleFisheyeLens.__init__))
             (Optimizer.solution
                (snd (Optimizer.optimize
                        (fun _ => 0) (fun _ => []) (fun _ _ _ => [200]) 0 0
                        WideAngleFisheyeLens.__init__
                        (WideAngleFisheyeLens.create_optimization_problem
                           WideAngleFisheyeLens.__init__) 1))).
Proof.
  assert (Hwf : Optimizer.malformed
                  (WideAngleFisheyeLens.create_optimization_problem
                     WideAngleFisheyeLens.__init__) = false) by reflexivity.
  split; [exact Hwf|].
  exact (proj1 (proj2 (proj2
           (optimizer_solution_within_bounds (fun _ => 0) (fun _ => [])
              (fun _ _ _ => [200]) 0 0 WideAngleFisheyeLens.__init__
              (WideAngleFisheyeLens.create_optimization_problem
                 WideAngleFisheyeLens.__init__) 1 Hwf)))).
Defined.

(* ===================================================================== *)
(** * Part III: further properties of the scripts                         *)
(* ===================================================================== *)

(** ** More on the two converters *)

Section ConverterFacts.

Lemma map_fst_combine_seq {A : Type} (l : list A) : forall b,
  map fst (combine (seq b (List.length l)) l) = seq b (List.length l).
Proof.
  induction l as [|a rest IH]; intro b; cbn; [reflexivity|].
  now rewrite IH.
Qed.

End ConverterFacts.

(** X1: [optiland_to_autolens] numbers the entries by position, 0, 1, 2, ...,
    whatever the index attributes of the lens's surfaces are and whatever
    can be read on them, and every entry it writes carries a material and
    a conic. *)
Theorem export_numbers_entries_by_position :
  forall (view : AutoLens.SurfaceView) (probe : Optic.t -> option Q)
         (L : Optic.t),
    map AutoLens.sd_index
        (AutoLens.d_surfaces (AutoLens.optiland_to_autolens view probe L))
    = seq 0 (List.length (Optic.surfaces L))
    /\ Forall (fun sd => AutoLens.sd_material sd <> None
                         /\ AutoLens.sd_conic sd <> None)
              (AutoLens.d_surfaces
                 (AutoLens.optiland_to_autolens view probe L)).
Proof.
  intros view probe L. rewrite optiland_to_autolens_surfaces.
  unfold AutoLens.enumerate. split.
  - rewrite map_map. cbn.
    change (fun x : nat * Optic.Surface => fst x) with (@fst nat Optic.Surface).
    apply map_fst_combine_seq.
  - apply Forall_forall. intros sd Hin.
    apply in_map_iff in Hin. destruct Hin as (entry & <- & _).
    split; discriminate.
Qed.

(** ** The Fresnel specification and the lens built from it *)



(** ** Outcomes of the integrated analysis *)

Ltac list_member :=
  cbn; repeat (first [left; reflexivity | right]).

Ltac not_list_member H :=
  cbn in H; repeat (destruct H as [H|H]; [discriminate H|]); exact H.

(** X6: the integrated analysis has three outcomes.  Without AutoLens it
    compares the lens with its own conversion (4 surfaces) and writes the
    report; with AutoLens and a successful optimisation it compares with the
    placeholder (0 surfaces, 2 fields, 3 wavelengths) and writes the report;
    with AutoLens and a failed optimisation the comparison raises
    [AttributeError] on [None], and neither the comparison plot nor the
    report is written. *)
Theorem integrated_analysis_outcomes :
  forall (GeoLens : Type) (AUTOLENS_AVAILABLE : bool)
         (view : AutoLens.SurfaceView)
         (aperture_radius : Optic.t -> option Q)
         (load : AutoLens.Data -> option GeoLens)
         (analysis : GeoLens -> option GeoLens)
         (paraxial_ok plot_ok : bool),
    let out := Integration.run_integrated_analysis
                 AUTOLENS_AVAILABLE view aperture_radius load analysis
                 paraxial_ok plot_ok [] in
    let succeeds := Integration.optimization_succeeds
                      load analysis
                      (AutoLens.optiland_to_autolens
                         view aperture_radius
                         AutoLens.create_realistic_fresnel_lens) in
    if negb AUTOLENS_AVAILABLE then
      snd out = inr tt
      /\ In (Integration.Count "AutoLens Surfaces" 4) (fst out)
      /\ In (Integration.SaveFile "INTEGRATION_REPORT.txt") (fst out)
    else if succeeds then
      snd out = inr tt
      /\ In (Integration.Count "AutoLens Surfaces" 0) (fst out)
      /\ In (Integration.Count "AutoLens Fields" 2) (fst out)
      /\ In (Integration.Count "AutoLens Wavelengths" 3) (fst out)
      /\ In (Integration.SaveFile "INTEGRATION_REPORT.txt") (fst out)
    else
      snd out = inl (Integration.AttributeError "NoneType" "get")
      /\ ~ In (Integration.SaveFile "optiland_autolens_comparison.png")
              (fst out)
      /\ ~ In (Integration.SaveFile "INTEGRATION_REPORT.txt") (fst out).
Proof.
  intros GeoLens available view probe load analysis paraxial_ok plot_ok
         out succeeds.
  subst out succeeds.
  unfold Integration.optimization_succeeds,
    Integration.run_integrated_analysis,
    Integration.run_autolens_optimization.
  destruct available; cbn [negb].
  - destruct (load _) as [lens|].
    + destruct (analysis lens) as [lens'|].
      * destruct paraxial_ok, plot_ok;
          (split; [reflexivity|]); repeat split; list_member.
      * destruct paraxial_ok;
          (split; [reflexivity|]); split; intro H; not_list_member H.
    + destruct paraxial_ok;
        (split; [reflexivity|]); split; intro H; not_list_member H.
  - destruct paraxial_ok, plot_ok;
      (split; [reflexivity|]); repeat split; list_member.
Qed.

(** ** The solar concentrator script never reaches its report *)

(** X7: whatever [optic.Optic] provides beyond the builder methods that
    [__init__] uses, [main] of the solar concentrator script ends in an
    exception and never writes the report: without an inherited
    [get_realistic_concentration] it stops at the first call, and with one it
    stops in the second iteration at the undefined name [detailed_results]
    inside [analyze_realistic_concentrator], after the detailed analysis. *)
Theorem solar_main_never_writes_report :
  forall Optic_attributes : list string,
    incl SolarScript.init_uses Optic_attributes ->
    let out := SolarScript.main Optic_attributes [] in
    ~ In SolarScript.ReportWritten (fst out)
    /\ (if SolarScript.provided Optic_attributes "get_realistic_concentration"
        then snd out = inl (SolarScript.NameError "detailed_results")
             /\ In SolarScript.DetailedAnalysis (fst out)
             /\ List.length
                  (filter (fun e => match e with
                                    | SolarScript.NewLens _ => true
                                    | _ => false
                                    end) (fst out)) = 2%nat
        else snd out = inl (SolarScript.AttributeError
                              "RealisticSolarConcentrator"
                              "get_realistic_concentration")).
Proof.
  intros Optic_attributes Huses out. subst out.
  assert (Hadd : SolarScript.provided Optic_attributes "add_surface" = true)
    by (apply provided_true, Huses; cbn; tauto).
  assert (Hap : SolarScript.provided Optic_attributes "set_aperture" = true)
    by (apply provided_true, Huses; cbn; tauto).
  assert (Hft : SolarScript.provided Optic_attributes "set_field_type" = true)
    by (apply provided_true, Huses; cbn; tauto).
  assert (Hfi : SolarScript.provided Optic_attributes "add_field" = true)
    by (apply provided_true, Huses; cbn; tauto).
  assert (Hwl : SolarScript.provided Optic_attributes "add_wavelength" = true)
    by (apply provided_true, Huses; cbn; tauto).
  destruct (SolarScript.provided Optic_attributes
              "get_realistic_concentration") eqn:Hget.
  - assert (Hrun : exists trace,
               SolarScript.main Optic_attributes []
               = (trace, inl (SolarScript.NameError "detailed_results"))
               /\ ~ In SolarScript.ReportWritten trace
               /\ In SolarScript.DetailedAnalysis trace
               /\ List.length
                    (filter (fun e => match e with
                                      | SolarScript.NewLens _ => true
                                      | _ => false
                                      end) trace) = 2%nat).
    { eexists. split.
      { repeat (cbv -[SolarScript.provided];
                rewrite ?Hadd, ?Hap, ?Hft, ?Hfi, ?Hwl, ?Hget).
        reflexivity. }
      split; [intro H; not_list_member H|].
      split; [list_member|reflexivity]. }
    destruct Hrun as (trace & -> & Hno & Hin & Hlen). cbn [fst snd].
    repeat split; assumption.
  - assert (Hrun : exists trace,
               SolarScript.main Optic_attributes []
               = (trace, inl (SolarScript.AttributeError
                                "RealisticSolarConcentrator"
                                "get_realistic_concentration"))
               /\ ~ In SolarScript.ReportWritten trace).
    { eexists. split.
      { repeat (cbv -[SolarScript.provided];
                rewrite ?Hadd, ?Hap, ?Hft, ?Hfi, ?Hwl, ?Hget).
        reflexivity. }
      intro H; not_list_member H. }
    destruct Hrun as (trace & -> & Hno). cbn [fst snd].
    split; [assumption|reflexivity].
Qed.

Lemma solar_main_never_writes_report_witness :
  incl SolarScript.init_uses
       ("get_realistic_concentration"%string
          :: SolarScript.Optic_attributes_in_use)
  /\ ~ In SolarScript.ReportWritten
          (fst (SolarScript.main
                  ("get_realistic_concentration"%string
                     :: SolarScript.Optic_attributes_in_use) [])).
Proof.
  assert (Huses : incl SolarScript.init_uses
                       ("get_realistic_concentration"%string
                          :: SolarScript.Optic_attributes_in_use)).
  { intros a Ha. cbn in Ha. cbn.
    repeat (destruct Ha as [<-|Ha]; [tauto|]). contradiction. }
  split; [exact Huses|].
  exact (proj1 (solar_main_never_writes_report _ Huses)).
Defined.

(** ** Power scenarios and performance at 0.4 m *)

Section PowerFacts.
Import RealisticPowerAnalysis.

Lemma pi_positive : 0 < Numpy.pi.
Proof. reflexivity. Qed.

Lemma total_efficiency_value : total_efficiency == 0.62137125.
Proof. reflexivity. Qed.

Lemma disc_area_nonneg r : 0 <= Numpy.pi * r ^ 2.
Proof.
  apply Qmult_le_0_compat; [apply Qlt_le_weak, pi_positive|].
  change (r ^ 2) with (r * r).
  destruct (Qlt_le_dec r 0) as [Hneg|Hpos].
  - setoid_replace (r * r) with ((- r) * (- r)) by ring.
    apply Qmult_le_0_compat; lra.
  - now apply Qmult_le_0_compat.
Qed.

Lemma scenario_bounds (irr A : Q) :
  0 <= irr -> 0 <= A ->
  irr * A * total_efficiency == 0.62137125 * (irr * A)
  /\ 0 <= irr * A * total_efficiency <= irr * A
  /\ irr * A - irr * A * total_efficiency == 0.37862875 * (irr * A).
Proof.
  intros Hirr HA.
  assert (HP : 0 <= irr * A) by now apply Qmult_le_0_compat.
  rewrite total_efficiency_value.
  set (P := irr * A) in *. repeat split; lra.
Qed.

End PowerFacts.

(** X8: for every lens diameter, [analyze_power_scenarios] reports the seven
    conditions in the order of the table, and in each the realistic power is
    62.137125 % of the theoretical power (the product of the five efficiency
    factors), so it lies between 0 and the theoretical power, and the loss
    reported is the remaining 37.862875 %. *)
Theorem power_scenarios_bounds :
  forall lens_diameter_m : Q,
    let results :=
      RealisticPowerAnalysis.analyze_power_scenarios lens_diameter_m in
    map fst results = map fst RealisticPowerAnalysis.irradiance_conditions
    /\ Forall
         (fun r =>
            RealisticPowerAnalysis.realistic_power_W r
            == 0.62137125 * RealisticPowerAnalysis.theoretical_power_W r
            /\ 0 <= RealisticPowerAnalysis.realistic_power_W r
               <= RealisticPowerAnalysis.theoretical_power_W r
            /\ RealisticPowerAnalysis.efficiency_loss_W r
               == 0.37862875 * RealisticPowerAnalysis.theoretical_power_W r)
         (map snd results).
Proof.
  intros d results. subst results.
  unfold RealisticPowerAnalysis.analyze_power_scenarios. cbv zeta.
  pose proof (disc_area_nonneg (d / 2)) as HA.
  set (A := Numpy.pi * (d / 2) ^ 2) in *.
  split; [reflexivity|].
  cbn [map RealisticPowerAnalysis.irradiance_conditions fst snd].
  repeat (apply Forall_cons;
          [cbn [RealisticPowerAnalysis.realistic_power_W
                  RealisticPowerAnalysis.theoretical_power_W
                  RealisticPowerAnalysis.efficiency_loss_W];
           apply scenario_bounds; [discriminate|exact HA]|]).
  apply Forall_nil.
Qed.

Section PerformanceFacts.
Import RealisticPowerAnalysis.

(** One row of the performance table, for irradiance [irr]. *)
Lemma performance_row (irr diameter f : Q) :
  0 < diameter -> 0 < f -> 0 < irr ->
  let lens_area_m2 := Numpy.pi * (diameter / 2000) ^ 2 in
  let beam_area :=
    Numpy.pi * (400.0 * ((diameter / 2) / f) / 1000) ^ 2 in
  let realistic := irr * (Numpy.pi * (diameter / 1000 / 2) ^ 2)
                   * total_efficiency in
  lens_area_m2 / beam_area == (f / 400) ^ 2
  /\ realistic / beam_area / 1000
     == irr * total_efficiency * (f / 400) ^ 2 / 1000
  /\ realistic / beam_area / 1000 * 1361 / irr
     == 1361 * total_efficiency * (f / 400) ^ 2 / 1000.
Proof.
  intros HD Hf Hirr. cbv zeta.
  pose proof pi_positive as Hpi.
  set (p := Numpy.pi) in *. set (e := total_efficiency).
  repeat split; field; repeat split; lra.
Qed.

End PerformanceFacts.

(** X9: for every lens diameter [D] and focal length [f], at 0.4 m the
    optical density is [(f / 400)^2] in every irradiance condition, so it
    does not depend on the diameter; the power density is the irradiance
    times the total efficiency times that density (in kW/m2), and the
    figure printed "with my 1361 W/m2" is the same in every row: the power
    density of the space-constant row. *)
Theorem performance_at_400mm :
  forall D f : Q,
    0 < D -> 0 < f ->
    let table :=
      RealisticPowerAnalysis.analyze_realistic_power_performance D f in
    map fst table = map fst RealisticPowerAnalysis.irradiance_conditions
    /\ Forall
         (fun p =>
            RealisticPowerAnalysis.optical_density p == (f / 400) ^ 2
            /\ RealisticPowerAnalysis.power_density_kW_m2 p
               == RealisticPowerAnalysis.irradiance p
                  * RealisticPowerAnalysis.total_efficiency
                  * (f / 400) ^ 2 / 1000
            /\ RealisticPowerAnalysis.with_space_constant p
               == 1361 * RealisticPowerAnalysis.total_efficiency
                  * (f / 400) ^ 2 / 1000)
         (map snd table)
    /\ exists space,
         RealisticPowerAnalysis.getitem table "space_solar_constant"
         = Some space
         /\ Forall
              (fun p =>
                 RealisticPowerAnalysis.with_space_constant p
                 == RealisticPowerAnalysis.power_density_kW_m2 space)
              (map snd table).
Proof.
  intros D f HD Hf table.
  assert (Hrows :
            Forall
              (fun p =>
                 RealisticPowerAnalysis.optical_density p == (f / 400) ^ 2
                 /\ RealisticPowerAnalysis.power_density_kW_m2 p
                    == RealisticPowerAnalysis.irradiance p
                       * RealisticPowerAnalysis.total_efficiency
                       * (f / 400) ^ 2 / 1000
                 /\ RealisticPowerAnalysis.with_space_constant p
                    == 1361 * RealisticPowerAnalysis.total_efficiency
                       * (f / 400) ^ 2 / 1000)
              (map snd table)).
  { subst table.
    unfold RealisticPowerAnalysis.analyze_realistic_power_performance,
      RealisticPowerAnalysis.analyze_power_scenarios. cbv zeta.
    cbn [map RealisticPowerAnalysis.irradiance_conditions fst snd
           RealisticPowerAnalysis.realistic_power_W
           RealisticPowerAnalysis.irradiance_W_m2].
    repeat (apply Forall_cons;
            [unfold RealisticPowerAnalysis.with_space_constant;
             cbn [RealisticPowerAnalysis.optical_density
                    RealisticPowerAnalysis.power_density_kW_m2
                    RealisticPowerAnalysis.irradiance];
             apply (performance_row _ D f HD Hf); reflexivity|]).
    apply Forall_nil. }
  split; [reflexivity|]. split; [exact Hrows|].
  eexists. split; [reflexivity|].
  inversion Hrows as [|space rest (_ & Hspace & _) _ Heq].
  eapply Forall_impl; [|exact Hrows].
  intros p (_ & _ & Hp). rewrite Hp.
  cbn [RealisticPowerAnalysis.power_density_kW_m2
         RealisticPowerAnalysis.irradiance] in Hspace.
  symmetry.
  etransitivity;
    [|apply (proj1 (proj2 (performance_row 1361 D f HD Hf eq_refl)))].
  reflexivity.
Qed.

Lemma performance_at_400mm_witness :
  0 < RealisticFresnelConcentrator.diameter
  /\ 0 < 1265
  /\ map fst (RealisticPowerAnalysis.analyze_realistic_power_performance
                RealisticFresnelConcentrator.diameter 1265)
     = map fst RealisticPowerAnalysis.irradiance_conditions.
Proof.
  assert (HD : 0 < RealisticFresnelConcentrator.diameter) by reflexivity.
  assert (H : 0 < 1265) by reflexivity.
  split; [exact HD|]. split; [exact H|].
  exact (proj1 (performance_at_400mm
                  RealisticFresnelConcentrator.diameter 1265 HD H)).
Defined.

(** X10: constructing the realistic concentrator raises [KeyError] exactly
    when the irradiance condition is not one of the seven names of the
    table, and then no lens is built; otherwise the irradiance is the table's
    value for that name and the prescription does not depend on it. *)
Theorem concentrator_construction :
  forall (irradiance_condition : string) (focal_length : Q),
    match RealisticPowerAnalysis.new_concentrator irradiance_condition
                                                  focal_length with
    | RealisticPowerAnalysis.KeyError key =>
        key = irradiance_condition
        /\ ~ In irradiance_condition
                (map fst RealisticPowerAnalysis.irradiance_conditions)
    | RealisticPowerAnalysis.Built irradiance lens =>
        In (irradiance_condition, irradiance)
           RealisticPowerAnalysis.irradiance_conditions
        /\ lens = RealisticFresnelConcentrator.__init__ focal_length
    end.
Proof.
  intros c f.
  unfold RealisticPowerAnalysis.new_concentrator,
    RealisticPowerAnalysis.getitem.
  destruct (find (fun entry => String.eqb c (fst entry))
                 RealisticPowerAnalysis.irradiance_conditions)
    as [[k v]|] eqn:E.
  - apply find_some in E. destruct E as [Hin Heq].
    cbn in Heq. apply String.eqb_eq in Heq. subst k.
    split; [exact Hin|reflexivity].
  - split; [reflexivity|].
    intro Hin. apply in_map_iff in Hin. destruct Hin as ([k v] & Hk & Hin).
    cbn in Hk. subst k.
    pose proof (find_none _ _ E _ Hin) as Hne. cbn in Hne.
    now rewrite String.eqb_refl in Hne.
Qed.

(** ** Power density against distance *)

Section PowerDensityFacts.
Import PowerDensity.

Lemma positive_test x : 0 < x -> negb (Qle_bool x 0) = true.
Proof.
  intro H. destruct (Qle_bool x 0) eqn:E; [|reflexivity].
  apply Qle_bool_iff in E. lra.
Qed.


Lemma square_positive r : 0 < r -> 0 < r ^ 2.
Proof.
  intro H. change (r ^ 2) with (r * r). now apply Qmult_lt_0_compat.
Qed.

Lemma beam_area_positive D f d :
  0 < D -> 0 < f -> 0 < d ->
  0 < Numpy.pi * (d * (D / 2 / f)) ^ 2 / 1e6.
Proof.
  intros HD Hf Hd.
  apply Qlt_shift_div_l; [reflexivity|].
  setoid_replace (0 * 1e6) with 0 by ring.
  apply Qmult_lt_0_compat; [apply pi_positive|].
  apply square_positive.
  apply Qmult_lt_0_compat; [exact Hd|].
  apply Qlt_shift_div_l; [exact Hf|].
  setoid_replace (0 * f) with 0 by ring.
  apply Qlt_shift_div_l; [reflexivity|]. lra.
Qed.

(** The loop body at a positive distance. *)
Lemma sample_at_positive P D f d :
  0 < D -> 0 < f -> 0 < d ->
  let s := sample_at P (Numpy.pi * (D / 2000) ^ 2) D f d in
  optical_density s == (f / d) ^ 2
  /\ power_density_kW_m2 s
     == P / (Numpy.pi * (D / 2000) ^ 2) * (f / d) ^ 2 / 1000
  /\ beam_radius_mm s == d * D / (2 * f).
Proof.
  intros HD Hf Hd s. subst s. unfold sample_at. cbv zeta.
  cbn [optical_density power_density_kW_m2 beam_radius_mm].
  rewrite (positive_test _ (beam_area_positive D f d HD Hf Hd)).
  cbv beta iota.
  pose proof pi_positive as Hpi. set (p := Numpy.pi) in *.
  change 1e6 with 1000000.
  split; [|split]; field; repeat split; lra.
Qed.



End PowerDensityFacts.

Section DistanceGridFacts.
Import PowerDensity.

Lemma Forall2_map_right {A B : Type} (P : A -> Prop) (R : A -> B -> Prop)
      (g : A -> B) (l : list A) :
  (forall a, P a -> R a (g a)) -> Forall P l -> Forall2 R l (map g l).
Proof.
  intros Hstep Hall. induction Hall as [|a rest Ha Hrest IH]; cbn;
    constructor; auto.
Qed.

Lemma all_positive (l : list Q) :
  forallb (fun d => negb (Qle_bool d 0)) l = true -> Forall (fun d => 0 < d) l.
Proof.
  intro H. apply Forall_forall. intros d Hin.
  rewrite forallb_forall in H. specialize (H d Hin).
  destruct (Qle_bool d 0) eqn:E; [discriminate|].
  destruct (Qlt_le_dec 0 d) as [Hlt|Hle]; [exact Hlt|].
  apply Qle_bool_iff in Hle. congruence.
Qed.

Lemma optimized_distances_positive f :
  Forall (fun d => 0 < d) (distances_mm (optimized_analysis f)).
Proof. apply all_positive. vm_compute. reflexivity. Qed.


End DistanceGridFacts.

Section SampleLaws.
Import PowerDensity.

Lemma optimized_samples_law f :
  0 < f ->
  Forall2 (fun d s =>
             optical_density s == (f / d) ^ 2
             /\ power_density_kW_m2 s == 0.5589 * (f / d) ^ 2
             /\ beam_radius_mm s == 600 * d / f)
          (distances_mm (optimized_analysis f))
          (samples (optimized_analysis f)).
Proof.
  intro Hf.
  assert (HD : 0 < 1200.0) by reflexivity.
  pose proof pi_positive as Hpi.
  unfold optimized_analysis at 2. cbv zeta. cbn [samples].
  apply Forall2_map_right with (P := fun d => 0 < d);
    [|apply (optimized_distances_positive f)].
  intros d Hd.
  destruct (sample_at_positive
              (900 * (Numpy.pi * (1200.0 / 2000) ^ 2) * 0.621)
              1200.0 f d HD Hf Hd) as (Ho & Hp & Hb).
  unfold OptimizedFresnelConcentrator.diameter.
  split; [exact Ho|]. split.
  - rewrite Hp. set (p := Numpy.pi) in *. field. repeat split; lra.
  - rewrite Hb. field. lra.
Qed.


End SampleLaws.



Section TargetFacts.
Import PowerDensity.

Lemma status_excellent x :
  status x = "EXCELLENT"%string <-> 9 < x < 11.
Proof.
  unfold status.
  destruct (Qle_bool 1.0 (Qabs (x - 10.0))) eqn:E; cbn [negb].
  - apply Qle_bool_iff in E. split; [discriminate|].
    intros [Hlo Hhi]. exfalso.
    assert (Habs : Qabs (x - 10.0) < 1.0).
    { apply Qabs_Qlt_condition. split; lra. }
    lra.
  - split; [intros _|reflexivity].
    assert (Habs : Qabs (x - 10.0) < 1.0).
    { destruct (Qlt_le_dec (Qabs (x - 10.0)) 1.0) as [Hlt|Hle];
        [exact Hlt|].
      apply Qle_bool_iff in Hle. congruence. }
    apply Qabs_Qlt_condition in Habs. split; lra.
Qed.

Lemma optimized_target_sample f :
  target_idx (optimized_analysis f) = Some 33%nat
  /\ exists d_m d_mm,
       nth_error (distances_m (optimized_analysis f)) 33 = Some d_m
       /\ nth_error (distances_mm (optimized_analysis f)) 33 = Some d_mm
       /\ d_m == 0.4 /\ d_mm == 400.
Proof.
  split; [vm_compute; reflexivity|].
  eexists. eexists.
  split; [cbv; reflexivity|]. split; [cbv; reflexivity|].
  split; reflexivity.
Qed.

End TargetFacts.

(** X12: [analyze_optimized_concentrator] takes its values "at 0.4 m" from
    sample 33 of the grid, which lies at exactly 0.4 m; there the optical
    density is [(f / 400)^2], and the status is "EXCELLENT" exactly when that
    density lies strictly between 9 and 11. *)
Theorem optimized_status_at_target :
  forall f : Q,
    0 < f ->
    PowerDensity.target_idx (PowerDensity.optimized_analysis f) = Some 33%nat
    /\ exists s,
         PowerDensity.at_0_4m (PowerDensity.optimized_analysis f) = Some s
         /\ PowerDensity.optical_density s == (f / 400) ^ 2
         /\ PowerDensity.power_density_kW_m2 s == 0.5589 * (f / 400) ^ 2
         /\ (PowerDensity.status (PowerDensity.optical_density s)
             = "EXCELLENT"%string
             <-> 9 < (f / 400) ^ 2 < 11).
Proof.
  intros f Hf.
  destruct (optimized_target_sample f)
    as (Hidx & d_m & d_mm & _ & Hmm & _ & Hd).
  split; [exact Hidx|].
  unfold PowerDensity.at_0_4m. rewrite Hidx.
  assert (Hpos : 0 < d_mm) by (rewrite Hd; reflexivity).
  pose proof (optimized_samples_law f Hf) as Hlaw.
  assert (Hs : exists s,
             nth_error (PowerDensity.samples (PowerDensity.optimized_analysis f))
                       33 = Some s
             /\ PowerDensity.optical_density s == (f / d_mm) ^ 2
             /\ PowerDensity.power_density_kW_m2 s == 0.5589 * (f / d_mm) ^ 2).
  { clear Hidx Hd Hpos.
    revert Hmm Hlaw.
    generalize (PowerDensity.distances_mm (PowerDensity.optimized_analysis f)).
    generalize (PowerDensity.samples (PowerDensity.optimized_analysis f)).
    generalize 33%nat.
    intros n ss ds Hn Hall. revert n Hn.
    induction Hall as [|d s ds' ss' (Ho & Hp & _) Hrest IH]; intros n Hn.
    - destruct n; discriminate.
    - destruct n as [|n]; cbn in *.
      + inversion Hn; subst. exists s. repeat split; assumption.
      + now apply IH. }
  destruct Hs as (s & Hnth & Ho & Hp).
  exists s. split; [exact Hnth|].
  assert (Ho' : PowerDensity.optical_density s == (f / 400) ^ 2).
  { rewrite Ho, Hd. reflexivity. }
  split; [exact Ho'|]. split.
  - rewrite Hp, Hd. reflexivity.
  - rewrite status_excellent.
    split; intros [Hlo Hhi]; split; lra.
Qed.

Lemma optimized_status_at_target_witness :
  0 < 1265
  /\ PowerDensity.target_idx (PowerDensity.optimized_analysis 1265)
     = Some 33%nat.
Proof.
  assert (H : 0 < 1265) by reflexivity.
  split; [exact H|].
  exact (proj1 (optimized_status_at_target 1265 H)).
Defined.

(** ** Concentration of the 1.5 m lens *)

(** X13: for a positive diameter and focal length the concentration that
    [get_concentration_ratio] returns is the square of the diameter over the
    actual spot, i.e. [(D^2 / (0.004026 f))^2], independent of pi; the curve
    plotted over f-numbers in [analyze_fresnel_concentrator] gives the same
    value at the lens's own f-number; and for the constructor's 1500 mm and
    750 mm it lies between 555 and 556 billion, far above the target 4. *)
Theorem concentration_ratio_law :
  forall D f : Q,
    0 < D -> 0 < f ->
    let result := Concentration.get_concentration_ratio D f in
    let concentration := fst (fst result) in
    let actual_spot := snd (fst result) in
    let diffraction_spot := snd result in
    actual_spot == 0.004026 * f / D
    /\ concentration == (D / actual_spot) ^ 2
    /\ concentration == (D * D / (0.004026 * f)) ^ 2
    /\ Concentration.plotted_concentration D (f / D) == concentration
    /\ 555000000000
       < fst (fst (Concentration.get_concentration_ratio
                     LargeFresnelConcentrator.diameter
                     LargeFresnelConcentrator.focal_length))
       < 556000000000.
Proof.
  intros D f HD Hf result concentration actual_spot diffraction_spot.
  subst concentration actual_spot diffraction_spot result.
  unfold Concentration.get_concentration_ratio,
    Concentration.plotted_concentration.
  cbv zeta. cbn [fst snd].
  pose proof pi_positive as Hpi. set (p := Numpy.pi) in *.
  change 0.550e-3 with (550 # 1000000).
  split; [field; lra|].
  split; [field; repeat split; lra|].
  split; [field; repeat split; lra|].
  split; [field; repeat split; lra|].
  split; vm_compute; reflexivity.
Qed.

Lemma concentration_ratio_law_witness :
  0 < 1500 /\ 0 < 750
  /\ Concentration.plotted_concentration 1500 (750 / 1500)
     == fst (fst (Concentration.get_concentration_ratio 1500 750)).
Proof.
  assert (HD : 0 < 1500) by reflexivity.
  assert (Hf : 0 < 750) by reflexivity.
  split; [exact HD|]. split; [exact Hf|].
  exact (proj1 (proj2 (proj2 (proj2 (concentration_ratio_law 1500 750 HD Hf))))).
Defined.

(** ** The endoscope problem for an arbitrary lens *)

Section EndoscopeProblemFacts.
Import Optic Optimization.

Lemma tenth_in_unit_range q :
  -1 <= q / 10.0 <= 1 <-> -10 <= q <= 10.
Proof.
  setoid_replace (q / 10.0) with (q * (1 # 10)) by field.
  split; intros [Hlo Hhi]; split; lra.
Qed.

End EndoscopeProblemFacts.

(** X14: for every lens, [optimize_endoscope] declares one operand per field
    of the lens, each on the last surface, with [Hy] the field angle over the
    fixed 10 degrees; so all [Hy] lie in [-1, 1] exactly when every field
    angle of the lens lies in [-10, 10], and the six variables are the same
    whatever the lens is. *)
Theorem endoscope_problem_follows_fields :
  forall lens : Optic.t,
    let problem := SimpleEndoscope.optimize_endoscope_problem lens in
    List.length (Optimization.operands problem)
    = List.length (Optic.fields lens)
    /\ Forall (fun op =>
                 Optimization.surface_number op
                 = (Z.of_nat (List.length (Optic.surfaces lens)) - 1)%Z)
              (Optimization.operands problem)
    /\ (Forall (fun op => -1 <= Optimization.Hy op <= 1)
               (Optimization.operands problem)
        <-> Forall (fun f => -10 <= Optic.y f <= 10) (Optic.fields lens))
    /\ Optimization.variables problem
       = Optimization.variables
           (SimpleEndoscope.optimize_endoscope_problem SimpleEndoscope.__init__).
Proof.
  intros lens problem. subst problem.
  unfold SimpleEndoscope.optimize_endoscope_problem. cbv zeta.
  cbn [Optimization.operands Optimization.variables].
  split; [apply length_map|].
  split.
  { apply Forall_forall. intros op Hin.
    apply in_map_iff in Hin. destruct Hin as (f & <- & _). reflexivity. }
  split; [|reflexivity].
  rewrite Forall_map. cbn [Optimization.Hy].
  split; intro H; (eapply Forall_impl; [|exact H]);
    intros f Hf; now apply tenth_in_unit_range.
Qed.
